(** * lsp-mcp: backend routing, workspace containment, interpreter discovery
      and edit application of the Python LSP MCP server

    Shallow embedding of [rope_mcp/config.py] and of the routing and
    edit-application helpers of [rope_mcp/server.py].

    Conventions of the embedding:
    - a Python [str] is a [string] whose characters are the code points
      below 256;
    - a [dict] keyed by strings is a [gmap string _], a [set] of strings a
      [gset string];
    - the module-level globals of [config.py] are the fields of one record
      that every operation receives and, when it mutates them, returns;
    - [os.path] and [pathlib] are the POSIX flavours ([posixpath],
      [PurePosixPath]);
    - the current directory, the file system, the running interpreter and
      the platform are the fields of the record [OS];
    - a function that can raise returns a [Py.result]. *)

From Stdlib Require Import Ascii String List Arith Lia Permutation Sorted.
From stdpp Require Import base decidable option list gmap strings.

Local Open Scope string_scope.

(** ** Python string primitives *)

Module PyStr.

(** [str.lower] on one code point below 256: the capital letters are
    [A]-[Z] (65-90) and the accented capitals 192-222 without the
    multiplication sign 215; each is 32 below its small letter. *)
Definition ascii_lower (c : ascii) : ascii :=
  let n := nat_of_ascii c in
  if (((65 <=? n)%nat && (n <=? 90)%nat)
      || ((192 <=? n)%nat && (n <=? 222)%nat && negb (n =? 215)%nat))%bool
  then ascii_of_nat (n + 32) else c.

Fixpoint lower (s : string) : string :=
  match s with
  | EmptyString => EmptyString
  | String c s' => String (ascii_lower c) (lower s')
  end.

(** Truth value of a string in a condition: [if s:]. *)
Definition truthy (s : string) : bool :=
  match s with EmptyString => false | String _ _ => true end.

(** Truth value of an [Optional[str]]: [None] and [""] are false. *)
Definition opt_truthy (o : option string) : bool :=
  match o with None => false | Some s => truthy s end.

End PyStr.

(** ** [posixpath]: the string functions behind [os.path] *)

Module Posixpath.

Definition sep : ascii := "/"%char.

(** [s.startswith(p)] *)
Definition startswith (s p : string) : bool := String.prefix p s.

(** [s.endswith("/")] *)
Fixpoint endswith_sep (s : string) : bool :=
  match s with
  | EmptyString => false
  | String c EmptyString => Ascii.eqb c sep
  | String _ s' => endswith_sep s'
  end.

(** [s.split("/")]: never empty, [""] splits into [[""]]. *)
Fixpoint split (s : string) : list string :=
  match s with
  | EmptyString => [EmptyString]
  | String c s' =>
      if Ascii.eqb c sep then EmptyString :: split s'
      else match split s' with
           | [] => [String c EmptyString]
           | w :: ws => String c w :: ws
           end
  end.

(** ["/".join(comps)] *)
Definition join_sep (comps : list string) : string := String.concat "/" comps.

Definition isabs (s : string) : bool := startswith s "/".

(** [os.path.join(a, b)] *)
Definition join (a b : string) : string :=
  if startswith b "/" then b
  else if (String.eqb a "" || endswith_sep a)%bool then a +:+ b
  else a +:+ "/" +:+ b.

(** The loop of [normpath] over the components; [new_comps] is kept in
    reverse, so that [append] is a cons and [pop] a tail. *)
Fixpoint normpath_loop (initial_slashes : nat) (comps new_comps : list string)
    : list string :=
  match comps with
  | [] => new_comps
  | comp :: comps' =>
      if (String.eqb comp "" || String.eqb comp ".")%bool
      then normpath_loop initial_slashes comps' new_comps
      else
        if (negb (String.eqb comp "..")
            || ((initial_slashes =? 0)%nat
                && match new_comps with [] => true | _ => false end)
            || match new_comps with
               | last :: _ => String.eqb last ".."
               | [] => false
               end)%bool
        then normpath_loop initial_slashes comps' (comp :: new_comps)
        else normpath_loop initial_slashes comps' (tail new_comps)
  end.

Definition initial_slashes (path : string) : nat :=
  if startswith path "/" then
    if (startswith path "//" && negb (startswith path "///"))%bool
    then 2 else 1
  else 0.

Definition slashes (n : nat) : string :=
  match n with 0 => "" | 1 => "/" | _ => "//" end.

(** [os.path.normpath] *)
Definition normpath (path : string) : string :=
  if String.eqb path "" then "."
  else
    let n := initial_slashes path in
    let comps := rev (normpath_loop n (split path) []) in
    let path' := slashes n +:+ join_sep comps in
    if String.eqb path' "" then "." else path'.

(** [os.path.abspath], with [os.getcwd()] passed as [cwd]. *)
Definition abspath (cwd path : string) : string :=
  normpath (if isabs path then path else join cwd path).

End Posixpath.

(** ** [pathlib]: pure POSIX paths *)

Module Pathlib.

(** A parsed path: its root ([""], ["/"] or ["//"]) and its components. *)
Record Path : Type := mkPath { root : string; parts : list string }.

Definition keep_part (x : string) : bool :=
  negb (String.eqb x "" || String.eqb x ".")%bool.

(** [Path(s)] *)
Definition parse (s : string) : Path :=
  mkPath (Posixpath.slashes (Posixpath.initial_slashes s))
         (filter (fun x => keep_part x = true) (Posixpath.split s)).

(** [str(p)] *)
Definition str (p : Path) : string :=
  if String.eqb (root p) "" then
    match parts p with
    | [] => "."
    | _ => Posixpath.join_sep (parts p)
    end
  else root p +:+ Posixpath.join_sep (parts p).

Definition is_absolute (p : Path) : bool := negb (String.eqb (root p) "").

(** [p / q] for two paths *)
Definition truediv (p q : Path) : Path :=
  if is_absolute q then q else mkPath (root p) (parts p ++ parts q).

End Pathlib.

Notation "p // q" := (Pathlib.truediv p q) (at level 40, left associativity).

(** ** Python values and exceptions *)

Module Py.

(** The values [json.load] and [tomllib.load] produce.  A float is
    observed by this code only through its type and its truth value, so
    numbers are integers. *)
#[warnings="-register-all"]
Inductive value : Type :=
| VNone
| VBool (b : bool)
| VInt (n : Z)
| VStr (s : string)
| VList (l : list value)
| VDict (d : list (string * value)).

Inductive exn : Set :=
| OSError | JSONDecodeError | TOMLDecodeError
| TypeError | AttributeError | KeyError
| UnicodeDecodeError | RecursionError.

#[global] Instance exn_eq_dec : EqDecision exn.
Proof. solve_decision. Defined.

(** Outcome of a statement sequence: a value, or a raised exception. *)
Inductive result (A : Type) : Type :=
| Ok (a : A)
| Raise (e : exn).
Arguments Ok {A} a.
Arguments Raise {A} e.

Definition bind {A B} (r : result A) (k : A -> result B) : result B :=
  match r with Ok a => k a | Raise e => Raise e end.

(** [try: body except handled: pass], continuing with [dflt]. *)
Definition try_except {A} (handled : exn -> bool) (body : result A) (dflt : A)
    : result A :=
  match body with
  | Ok a => Ok a
  | Raise e => if handled e then Ok dflt else Raise e
  end.

(** [bool(v)] *)
Definition truthy (v : value) : bool :=
  match v with
  | VNone => false
  | VBool b => b
  | VInt n => negb (Z.eqb n 0)
  | VStr s => PyStr.truthy s
  | VList l => match l with [] => false | _ => true end
  | VDict d => match d with [] => false | _ => true end
  end.

Fixpoint assoc (k : string) (d : list (string * value)) : option value :=
  match d with
  | [] => None
  | (k', v) :: d' => if String.eqb k k' then Some v else assoc k d'
  end.

Definition is_str (k : string) (v : value) : bool :=
  match v with VStr s => String.eqb s k | _ => false end.

(** [k in v] for a string [k] *)
Definition contains (k : string) (v : value) : result bool :=
  match v with
  | VDict d => Ok (match assoc k d with Some _ => true | None => false end)
  | VList l => Ok (existsb (is_str k) l)
  | VStr s => Ok (match String.index 0 k s with Some _ => true | None => false end)
  | VNone | VBool _ | VInt _ => Raise TypeError
  end.

(** [v[k]] for a string [k] *)
Definition getitem (v : value) (k : string) : result value :=
  match v with
  | VDict d => match assoc k d with Some x => Ok x | None => Raise KeyError end
  | _ => Raise TypeError
  end.

(** [v.get(k, dflt)]: a method of [dict] only *)
Definition get (v : value) (k : string) (dflt : value) : result value :=
  match v with
  | VDict d => Ok (match assoc k d with Some x => x | None => dflt end)
  | _ => Raise AttributeError
  end.

(** [Path(v)]: accepts a [str] *)
Definition to_path (v : value) : result Pathlib.Path :=
  match v with
  | VStr s => Ok (Pathlib.parse s)
  | _ => Raise TypeError
  end.

(** [p / v] *)
Definition truediv (p : Pathlib.Path) (v : value) : result Pathlib.Path :=
  match v with
  | VStr s => Ok (p // Pathlib.parse s)
  | _ => Raise TypeError
  end.

End Py.

Notation "'let!' x ':=' c1 'in' c2" := (Py.bind c1 (fun x => c2))
  (at level 10, x name, c1 at level 100, c2 at level 200).

(** ** The operating system seen by [config.py] *)

(** What reading and parsing a configuration file gives: the file cannot
    be opened or read, its text is not JSON (TOML), it parses to a value,
    its bytes are not UTF-8, or it is nested deeper than the parser
    recurses. *)
Inductive file_load : Type :=
| Unreadable
| Malformed
| Parsed (v : Py.value)
| Undecodable
| TooDeep.

Record OS : Type := mkOS {
  getcwd : string;
  (** [os.stat] succeeds on the path *)
  fs_exists : string -> bool;
  (** [os.access(path, os.X_OK)] *)
  fs_access_x : string -> bool;
  (** [json.load(open(path))] and [tomllib.load(open(path, "rb"))] *)
  fs_load : string -> file_load;
  sys_executable : string;
  (** [sys.platform == "win32"] *)
  win32 : bool
}.

(** [path.exists()] *)
Definition path_exists (os : OS) (p : Pathlib.Path) : bool :=
  fs_exists os (Pathlib.str p).

(** [json.load(f)] for [f] opened with [open(p, "r", encoding="utf-8")]:
    each outcome of reading and parsing with the exception it raises. *)
Definition json_load (os : OS) (p : Pathlib.Path) : Py.result Py.value :=
  match fs_load os (Pathlib.str p) with
  | Unreadable => Py.Raise Py.OSError
  | Malformed => Py.Raise Py.JSONDecodeError
  | Parsed v => Py.Ok v
  | Undecodable => Py.Raise Py.UnicodeDecodeError
  | TooDeep => Py.Raise Py.RecursionError
  end.

(** [tomllib.load(f)] for [f] opened with [open(p, "rb")] *)
Definition toml_load (os : OS) (p : Pathlib.Path) : Py.result Py.value :=
  match fs_load os (Pathlib.str p) with
  | Unreadable => Py.Raise Py.OSError
  | Malformed => Py.Raise Py.TOMLDecodeError
  | Parsed v => Py.Ok v
  | Undecodable => Py.Raise Py.UnicodeDecodeError
  | TooDeep => Py.Raise Py.RecursionError
  end.

(** ** [config.py] *)

Module Config.
Import Pathlib.

(** [class Backend(Enum)] *)
Inductive Backend : Set := ROPE | PYRIGHT.

#[global] Instance Backend_eq_dec : EqDecision Backend.
Proof. solve_decision. Defined.

Definition Backend_value (b : Backend) : string :=
  match b with ROPE => "rope" | PYRIGHT => "pyright" end.

(** [Backend(v)]: lookup of an enum member by value; [None] stands for the
    [ValueError] raised on an unknown value. *)
Definition Backend_of_value (v : string) : option Backend :=
  if String.eqb v "rope" then Some ROPE
  else if String.eqb v "pyright" then Some PYRIGHT
  else None.

Definition SHARED_TOOLS : gset string :=
  {[ "hover"; "definition"; "references"; "completions"; "symbols" ]}.
Definition ROPE_ONLY_TOOLS : gset string := {[ "rename" ]}.
Definition PYRIGHT_ONLY_TOOLS : gset string :=
  {[ "diagnostics"; "signature_help" ]}.

(** [@dataclass class ServerConfig] *)
Record ServerConfig : Type := mkServerConfig {
  default_backend : Backend;
  tool_backends : gmap string Backend
}.

(** [ServerConfig.get_backend_for] *)
Definition get_backend_for (self : ServerConfig) (tool : string) : Backend :=
  if decide (tool ∈ ROPE_ONLY_TOOLS) then ROPE
  else if decide (tool ∈ PYRIGHT_ONLY_TOOLS) then PYRIGHT
  else match tool_backends self !! tool with
       | Some b => b
       | None => default_backend self
       end.

(** [ServerConfig.set_backend]; the method mutates [self], the embedding
    returns the new configuration. *)
Definition set_backend (self : ServerConfig) (backend : Backend)
    (tool : option string) : ServerConfig :=
  match tool with
  | None => mkServerConfig backend (tool_backends self)
  | Some t =>
      if decide (t ∈ SHARED_TOOLS)
      then mkServerConfig (default_backend self)
                          (<[t := backend]> (tool_backends self))
      else self
  end.

(** [ServerConfig.set_all_backends] *)
Definition set_all_backends (self : ServerConfig) (backend : Backend)
    : ServerConfig :=
  mkServerConfig backend ∅.

(** *** Interpreter paths and the active workspace *)

(** The module-level globals [_python_paths], [_global_python_path] and
    [_active_workspace]. *)
Record Globals : Type := mkGlobals {
  _python_paths : gmap string string;
  _global_python_path : option string;
  _active_workspace : option string
}.

(** [_extract_python_path_from_pyright(config, workspace_path)] *)
Definition _extract_python_path_from_pyright (os : OS) (config : Py.value)
    (workspace_path : Path) : Py.result (option string) :=
  let! has_python_path := Py.contains "pythonPath" config in
  let! direct :=
    (if has_python_path then
       let! v := Py.getitem config "pythonPath" in
       let! python_path := Py.to_path v in
       let python_path :=
         if negb (is_absolute python_path)
         then workspace_path // python_path else python_path in
       Py.Ok (if path_exists os python_path
              then Some (str python_path) else None)
     else Py.Ok None) in
  match direct with
  | Some p => Py.Ok (Some p)
  | None =>
      let! venv_path := Py.get config "venvPath" Py.VNone in
      let! venv_name := Py.get config "venv" Py.VNone in
      if (Py.truthy venv_path && Py.truthy venv_name)%bool then
        let! venv_dir := Py.to_path venv_path in
        let venv_dir :=
          if negb (is_absolute venv_dir)
          then workspace_path // venv_dir else venv_dir in
        let! venv_dir := Py.truediv venv_dir venv_name in
        let python_exe :=
          if win32 os
          then venv_dir // parse "Scripts" // parse "python.exe"
          else venv_dir // parse "bin" // parse "python" in
        Py.Ok (if path_exists os python_exe
               then Some (str python_exe) else None)
      else Py.Ok None
  end.

(** [except (json.JSONDecodeError, OSError)] *)
Definition handled_json (e : Py.exn) : bool :=
  match e with Py.JSONDecodeError | Py.OSError => true | _ => false end.

(** [except (tomllib.TOMLDecodeError, OSError)] *)
Definition handled_toml (e : Py.exn) : bool :=
  match e with Py.TOMLDecodeError | Py.OSError => true | _ => false end.

(** [if python_path: return python_path] *)
Definition if_truthy (o : option string) : option string :=
  if PyStr.opt_truthy o then o else None.

(** [find_pyright_python_path(workspace)] *)
Definition find_pyright_python_path (os : OS) (workspace : string)
    : Py.result (option string) :=
  let workspace_path := parse workspace in
  let pyright_config := workspace_path // parse "pyrightconfig.json" in
  let! found :=
    (if path_exists os pyright_config then
       Py.try_except handled_json
         (let! config := json_load os pyright_config in
          let! python_path :=
            _extract_python_path_from_pyright os config workspace_path in
          Py.Ok (if_truthy python_path))
         None
     else Py.Ok None) in
  match found with
  | Some p => Py.Ok (Some p)
  | None =>
      let pyproject := workspace_path // parse "pyproject.toml" in
      if path_exists os pyproject then
        Py.try_except handled_toml
          (let! config := toml_load os pyproject in
           let! tool := Py.get config "tool" (Py.VDict []) in
           let! pyright_config := Py.get tool "pyright" (Py.VDict []) in
           let! python_path :=
             _extract_python_path_from_pyright os pyright_config
               workspace_path in
           Py.Ok (if_truthy python_path))
          None
      else Py.Ok None
  end.

(** The interpreter of a virtual environment directory. *)
Definition venv_python_exe (os : OS) (workspace_path : Path)
    (venv_dir : string) : Path :=
  if win32 os
  then workspace_path // parse venv_dir // parse "Scripts" // parse "python.exe"
  else workspace_path // parse venv_dir // parse "bin" // parse "python".

Definition venv_dirs : list string := [".venv"; "venv"; "env"].

(** The [for venv_dir in venv_dirs] loop of [find_venv_python_path]. *)
Fixpoint find_venv_loop (os : OS) (workspace_path : Path)
    (dirs : list string) : option string :=
  match dirs with
  | [] => None
  | venv_dir :: dirs' =>
      let python_exe := venv_python_exe os workspace_path venv_dir in
      if path_exists os python_exe then Some (str python_exe)
      else find_venv_loop os workspace_path dirs'
  end.

(** [find_venv_python_path(workspace)] *)
Definition find_venv_python_path (os : OS) (workspace : string)
    : option string :=
  find_venv_loop os (parse workspace) venv_dirs.

(** [get_python_path_for_workspace(workspace)] *)
Definition get_python_path_for_workspace (g : Globals) (os : OS)
    (workspace : string) : Py.result string :=
  let workspace := Posixpath.abspath (getcwd os) workspace in
  match _python_paths g !! workspace with
  | Some p => Py.Ok p
  | None =>
      match if_truthy (_global_python_path g) with
      | Some p => Py.Ok p
      | None =>
          let! pyright_path := find_pyright_python_path os workspace in
          match if_truthy pyright_path with
          | Some p => Py.Ok p
          | None =>
              match if_truthy (find_venv_python_path os workspace) with
              | Some p => Py.Ok p
              | None => Py.Ok (sys_executable os)
              end
          end
      end
  end.

(** [set_active_workspace(workspace)] *)
Definition set_active_workspace (g : Globals) (os : OS) (workspace : string)
    : string * Globals :=
  let w := Posixpath.abspath (getcwd os) workspace in
  (w, mkGlobals (_python_paths g) (_global_python_path g) (Some w)).

(** [get_active_workspace()] *)
Definition get_active_workspace (g : Globals) : option string :=
  _active_workspace g.

(** [is_file_in_workspace(file_path)] *)
Definition is_file_in_workspace (g : Globals) (os : OS) (file_path : string)
    : bool :=
  match if_truthy (_active_workspace g) with
  | None => true
  | Some w =>
      let abs_file := Posixpath.abspath (getcwd os) file_path in
      Posixpath.startswith abs_file w
  end.

Definition nl : string := String (ascii_of_nat 10) EmptyString.
Definition dquote : string := String (ascii_of_nat 34) EmptyString.

(** The error dictionary of [resolve_file_path]. *)
Record error_dict : Type := mkError {
  error : string;
  message : string;
  current_workspace : string;
  resolved_path : string
}.

Definition mismatch_message (file_path abs_path workspace : string) : string :=
  "The file '" +:+ file_path +:+ "' resolves to '" +:+ abs_path
  +:+ "', which is outside the active workspace '" +:+ workspace +:+ "'."
  +:+ nl +:+ nl
  +:+ "Current Logic:" +:+ nl
  +:+ "1. I only analyze files from the active project to ensure accuracy and save resources." +:+ nl
  +:+ "2. You must explicitly switch the workspace if you want to work on a different project." +:+ nl +:+ nl
  +:+ "Action Required:" +:+ nl
  +:+ "Please call 'switch_workspace(path=" +:+ dquote +:+ "..." +:+ dquote
  +:+ ")' with the new project root before retrying.".

(** [resolve_file_path(file_path)] *)
Definition resolve_file_path (g : Globals) (os : OS) (file_path : string)
    : option string * option error_dict :=
  let path_obj := parse file_path in
  let abs_path :=
    if negb (is_absolute path_obj) then
      match if_truthy (_active_workspace g) with
      | Some w => Posixpath.join w file_path
      | None => Posixpath.abspath (getcwd os) file_path
      end
    else str path_obj in
  let abs_path := Posixpath.abspath (getcwd os) abs_path in
  match if_truthy (_active_workspace g) with
  | Some w =>
      if negb (Posixpath.startswith abs_path w)
      then (None,
            Some (mkError "Context Mismatch"
                          (mismatch_message file_path abs_path w)
                          w abs_path))
      else (Some abs_path, None)
  | None => (Some abs_path, None)
  end.

(** [validate_file_workspace(file_path)] *)
Definition validate_file_workspace (g : Globals) (os : OS)
    (file_path : string) : option error_dict :=
  snd (resolve_file_path g os file_path).

(** The dictionary returned by [set_python_path]; an absent key is [None]. *)
Record reply : Type := mkReply {
  success : bool;
  reply_error : option string;
  reply_message : option string;
  python_path : option string;
  workspace : option string
}.

(** [set_python_path(python_path, workspace=None)] *)
Definition set_python_path (g : Globals) (os : OS) (python_path : string)
    (workspace : option string) : reply * Globals :=
  let path := parse python_path in
  if negb (path_exists os path) then
    (mkReply false
       (Some ("Python path does not exist: " +:+ python_path))
       None None None, g)
  else if negb (fs_access_x os python_path) then
    (mkReply false
       (Some ("Python path is not executable: " +:+ python_path))
       None None None, g)
  else
    match if_truthy workspace with
    | Some w =>
        let w := Posixpath.abspath (getcwd os) w in
        (mkReply true None
           (Some ("Python path set for workspace: " +:+ w))
           (Some python_path) (Some w),
         mkGlobals (<[w := python_path]> (_python_paths g))
                   (_global_python_path g) (_active_workspace g))
    | None =>
        (mkReply true None (Some "Global Python path set")
           (Some python_path) None,
         mkGlobals (_python_paths g) (Some python_path)
                   (_active_workspace g))
    end.

End Config.

(** ** The rope client *)

Module RopeClient.

(** Modelled from the spec: the offset of the first character of the
    0-based line [n] ([rope_client.py] is not among the sources); the lines
    of [content] end at a line feed. *)
Fixpoint line_start (content : string) (n : nat) {struct content} : nat :=
  match n with
  | 0 => 0
  | S k =>
      match content with
      | EmptyString => 0
      | String c content' =>
          S (line_start content' (if Ascii.eqb c (ascii_of_nat 10) then k else n))
      end
  end.

(** Modelled from the spec: [position_to_offset] of the rope client
    ([rope_client.py], not among the sources).  It converts a line and a
    character of the content into a character offset; the caller passes
    the 0-based LSP numbers plus one. *)
Definition position_to_offset (content : string) (line column : nat) : nat :=
  line_start content (line - 1) + (column - 1).

End RopeClient.

(** ** [server.py]: effective backend and the [set_backend] tool *)

Module Server.
Import Config.

(** [_get_effective_backend(tool, backend)] with [get_config()] passed
    explicitly. *)
Definition _get_effective_backend (cfg : ServerConfig) (tool : string)
    (backend : option string) : Backend :=
  let fallback := get_backend_for cfg tool in
  match backend with
  | Some s =>
      if PyStr.truthy s
      then match Backend_of_value (PyStr.lower s) with
           | Some b => b
           | None => fallback
           end
      else fallback
  | None => fallback
  end.

(** The JSON object returned by the [set_backend] tool. *)
Inductive set_backend_reply : Type :=
| InvalidBackend (backend : string)
| InvalidTool (tool : string)
| ToolBackendSet (tool backend : string)
| DefaultBackendSet (backend : string) (affected_tools : gset string).

(** The [set_backend] tool ([@mcp.tool() def set_backend]). *)
Definition set_backend (cfg : ServerConfig) (backend : string)
    (tool : option string) : set_backend_reply * ServerConfig :=
  match Backend_of_value (PyStr.lower backend) with
  | None => (InvalidBackend backend, cfg)
  | Some backend_enum =>
      match tool with
      | Some t =>
          if PyStr.truthy t then
            if decide (t ∈ SHARED_TOOLS)
            then (ToolBackendSet t backend,
                  Config.set_backend cfg backend_enum (Some t))
            else (InvalidTool t, cfg)
          else (DefaultBackendSet backend SHARED_TOOLS,
                set_all_backends cfg backend_enum)
      | None => (DefaultBackendSet backend SHARED_TOOLS,
                 set_all_backends cfg backend_enum)
      end
  end.


(** *** Applying a workspace edit *)

(** An LSP position, range and text edit, as the dictionaries
    [text_edit["range"]["start"]["line"]] and so on are read. *)
Record Position : Set := mkPosition { line : nat; character : nat }.
Record Range : Set := mkRange { start : Position; end_ : Position }.
Record TextEdit : Set := mkTextEdit { range : Range; newText : string }.

(** The sort key [(e["range"]["start"]["line"],
    e["range"]["start"]["character"])] and the order of tuples. *)
Definition sort_key (e : TextEdit) : nat * nat :=
  (line (start (range e)), character (start (range e))).

Definition key_lt (a b : nat * nat) : bool :=
  ((fst a <? fst b)%nat
   || ((fst a =? fst b)%nat && (snd a <? snd b)%nat))%bool.

(** [list.sort(key=..., reverse=True)]: descending and stable, edits with
    equal keys keep the order of the input.  [insert_desc e l] puts [e],
    which precedes every element of [l] in the input, into the sorted
    [l]. *)
Fixpoint insert_desc (e : TextEdit) (l : list TextEdit) : list TextEdit :=
  match l with
  | [] => [e]
  | x :: l' =>
      if key_lt (sort_key e) (sort_key x) then x :: insert_desc e l'
      else e :: l
  end.

Definition sort_desc (l : list TextEdit) : list TextEdit :=
  foldr insert_desc [] l.

(** [s[:n]] and [s[n:]] for [n >= 0] *)
Fixpoint take (n : nat) (s : string) : string :=
  match n, s with
  | S k, String c s' => String c (take k s')
  | _, _ => EmptyString
  end.

Fixpoint drop (n : nat) (s : string) : string :=
  match n, s with
  | S k, String _ s' => drop k s'
  | _, _ => s
  end.

Section Apply.
(** [client.position_to_offset(content, line, column)] of the rope
    client, with 1-based [line] and [column]. *)
Variable position_to_offset : string -> nat -> nat -> nat.

(** One iteration of [for text_edit in text_edits]. *)
Definition apply_text_edit (content : string) (text_edit : TextEdit)
    : string :=
  let start := start (range text_edit) in
  let end_ := end_ (range text_edit) in
  let new_text := newText text_edit in
  let start_offset :=
    position_to_offset content (line start + 1) (character start + 1) in
  let end_offset :=
    position_to_offset content (line end_ + 1) (character end_ + 1) in
  take start_offset content +:+ new_text +:+ drop end_offset content.

(** The body of the loop over [changes.items()] for a file that exists:
    sort the edits, then substitute them one after the other. *)
Definition apply_text_edits (content : string) (text_edits : list TextEdit)
    : string :=
  foldl apply_text_edit content (sort_desc text_edits).

(** [uri.replace("file://", "")]: [skip] characters of a match are still
    to be dropped. *)
Fixpoint strip_scheme (skip : nat) (uri : string) : string :=
  match uri with
  | EmptyString => EmptyString
  | String c uri' =>
      match skip with
      | S k => strip_scheme k uri'
      | 0 =>
          if String.prefix "file://" uri then strip_scheme 6 uri'
          else String c (strip_scheme 0 uri')
      end
  end.

(** The files [_apply_workspace_edit] reads and rewrites.  A path names a
    file through [inode_of], which stands for the path resolution of the
    platform (current directory, [.] and [..], links): several spellings
    may name one file.  A file is a regular UTF-8 file that can be read,
    holding [text] (its bytes decoded, line ends as stored), or something
    [open(file_path, "r", encoding="utf-8")] or [f.read()] raises [e] on: a
    directory or a file without read permission ([OSError]), bytes that
    are not UTF-8 ([UnicodeDecodeError]). *)
Inductive inode : Type :=
| Regular (text : string) (writable : bool)
| NoText (e : Py.exn).

Definition LF : ascii := "010"%char.
Definition CR : ascii := "013"%char.

(** [f.read()] of a file opened in text mode: the line ends [\r\n] and
    [\r] are read as [\n]. *)
Fixpoint read_text (text : string) : string :=
  match text with
  | EmptyString => EmptyString
  | String c text' =>
      if Ascii.eqb c CR then
        match text' with
        | String c' text'' =>
            if Ascii.eqb c' LF then String LF (read_text text'')
            else String LF (read_text text')
        | EmptyString => String LF EmptyString
        end
      else String c (read_text text')
  end.

(** [f.write(content)] of a file opened in text mode: [\n] is written as
    [os.linesep], which is [\r\n] on [win32]. *)
Fixpoint write_text (win32 : bool) (content : string) : string :=
  match content with
  | EmptyString => EmptyString
  | String c content' =>
      if (win32 && Ascii.eqb c LF)%bool
      then String CR (String LF (write_text win32 content'))
      else String c (write_text win32 content')
  end.

(** [_apply_workspace_edit(edit)]: [changes] is [edit.get("changes", {})]
    in iteration order.  The result is the files afterwards and the
    exception that ended the loop, if one did: nothing in the function
    catches it, and what was written before stays written.  A path that
    does not exist is skipped; opening a file that exists but is read-only
    for writing raises [OSError] and leaves it as it was. *)
Fixpoint _apply_workspace_edit (win32 : bool)
    (inode_of : string -> option nat) (inodes : gmap nat inode)
    (changes : list (string * list TextEdit))
    : gmap nat inode * option Py.exn :=
  match changes with
  | [] => (inodes, None)
  | change :: changes' =>
      let file_path := strip_scheme 0 (fst change) in
      let file_path :=
        if (win32 && Posixpath.startswith file_path "/")%bool
        then drop 1 file_path else file_path in
      match inode_of file_path with
      | None => _apply_workspace_edit win32 inode_of inodes changes'
      | Some k =>
          match inodes !! k with
          | None => _apply_workspace_edit win32 inode_of inodes changes'
          | Some (NoText e) => (inodes, Some e)
          | Some (Regular text writable) =>
              let content := apply_text_edits (read_text text) (snd change) in
              if writable
              then _apply_workspace_edit win32 inode_of
                     (<[k := Regular (write_text win32 content) true]> inodes)
                     changes'
              else (inodes, Some Py.OSError)
          end
      end
  end.

End Apply.

End Server.

(** ** [config.py]: configuration from the environment *)

Module ConfigEnv.
Import Config.

(** [str.upper] on the ASCII range; [from_env] applies it to the names in
    [SHARED_TOOLS] only, and these are ASCII. *)
Definition ascii_upper (c : ascii) : ascii :=
  let n := nat_of_ascii c in
  if ((97 <=? n)%nat && (n <=? 122)%nat)%bool then ascii_of_nat (n - 32) else c.

Fixpoint upper (s : string) : string :=
  match s with
  | EmptyString => EmptyString
  | String c s' => String (ascii_upper c) (upper s')
  end.

Definition ENV_PREFIXES : list string := ["PYTHON_LSP_MCP_"; "ROPE_MCP_"].

(** The loop of [get_env] over the prefixes; [environ] is [os.environ]. *)
Fixpoint get_env_loop (environ : gmap string string) (prefixes : list string)
    (suffix : string) : option string :=
  match prefixes with
  | [] => None
  | prefix :: prefixes' =>
      let val := PyStr.lower (default "" (environ !! (prefix +:+ suffix))) in
      if PyStr.truthy val then Some val
      else get_env_loop environ prefixes' suffix
  end.

(** [get_env(suffix)], the local function of [from_env] *)
Definition get_env (environ : gmap string string) (suffix : string)
    : option string :=
  get_env_loop environ ENV_PREFIXES suffix.

(** [val in ["rope", "pyright"]] for an [Optional[str]] *)
Definition in_backend_names (val : option string) : bool :=
  match val with
  | Some v => (String.eqb v "rope" || String.eqb v "pyright")%bool
  | None => false
  end.

(** [Backend(v)] where the value is known to name a member; the [ValueError]
    of other values is not reached by [from_env]. *)
Definition Backend_of (v : string) : Backend :=
  match Backend_of_value v with Some b => b | None => ROPE end.

(** One iteration of [for tool in SHARED_TOOLS]. *)
Definition from_env_step (environ : gmap string string) (tool : string)
    (tool_backends : gmap string Backend) : gmap string Backend :=
  let val := get_env environ (upper tool +:+ "_BACKEND") in
  if in_backend_names val
  then <[tool := Backend_of (default "" val)]> tool_backends
  else tool_backends.

(** [ServerConfig.from_env()] *)
Definition from_env (environ : gmap string string) : ServerConfig :=
  let default_ :=
    match get_env environ "BACKEND" with
    | Some v => if PyStr.truthy v then v else "rope"
    | None => "rope"
    end in
  let default_backend :=
    if in_backend_names (Some default_) then Backend_of default_ else ROPE in
  let tool_backends := set_fold (from_env_step environ) ∅ SHARED_TOOLS in
  mkServerConfig default_backend tool_backends.

(** [get_config()]: the global [_config] is created on first use. *)
Definition get_config (environ : gmap string string)
    (_config : option ServerConfig) : ServerConfig * option ServerConfig :=
  match _config with
  | None => let c := from_env environ in (c, Some c)
  | Some c => (c, Some c)
  end.

(** [set_config(config)] *)
Definition set_config (config : ServerConfig) (_config : option ServerConfig)
    : option ServerConfig :=
  Some config.

End ConfigEnv.

(** ** [server.py]: the tools around the workspace *)

Module ServerTools.
Import Config.

(** Reply of [switch_workspace]. *)
Inductive switch_reply : Type :=
| InvalidPath (message : string)
| Switched (message workspace info : string).

(** What a tool returns before [json.dumps]: the error dictionary of
    [resolve_file_path], a result tagged with the backend that produced it,
    or the text of an exception with the backend that raised it. *)
Inductive tool_reply (R : Type) : Type :=
| ErrorDict (e : error_dict)
| Result (r : R) (backend : string)
| Failure (error : string) (backend : string).
Arguments ErrorDict {R} e.
Arguments Result {R} r backend.
Arguments Failure {R} error backend.

(** Outcome of a call into the language server client. *)
Inductive outcome (R : Type) : Type :=
| Returned (r : R)
| Raised (message : string).
Arguments Returned {R} r.
Arguments Raised {R} message.

(** What the [hover] tool packs: from pyright the ["contents"] of the
    answer, or [None] with the message "No hover info" when the answer is
    empty; from rope the whole result. *)
Inductive hover_payload (C RR : Type) : Type :=
| PyrightContents (contents : option C)
| RopeResult (result : RR).
Arguments PyrightContents {C RR} contents.
Arguments RopeResult {C RR} result.

Section Tools.
(** The sessions of the language server and of rope, and what closes
    them. *)
Variable Sessions : Type.
Variable close_lsp_clients : Sessions -> Sessions.
Variable rope_close_all : Sessions -> Sessions.
(** [os.path.isdir] *)
Variable isdir : string -> bool.

(** [switch_workspace(path)] *)
Definition switch_workspace (g : Globals) (os : OS) (sessions : Sessions)
    (path : string) : switch_reply * Globals * Sessions :=
  let abs_path := Posixpath.abspath (getcwd os) path in
  if negb (isdir abs_path) then
    (InvalidPath ("'" +:+ path +:+ "' is not a directory."), g, sessions)
  else
    let sessions := close_lsp_clients sessions in
    let sessions := rope_close_all sessions in
    let '(new_workspace, g) := set_active_workspace g os abs_path in
    (Switched ("Switched active workspace to: " +:+ new_workspace)
              new_workspace
              "All previous language server instances have been closed.",
     g, sessions).

(** The results of the engines. *)
Variable R : Type.
(** [client.find_workspace_for_file] of the rope client *)
Variable find_workspace_for_file : option string -> outcome string.

(** [_find_workspace(file_path)] *)
Definition _find_workspace (g : Globals) (file_path : option string)
    : outcome string :=
  match if_truthy (get_active_workspace g) with
  | Some active => Returned active
  | None => find_workspace_for_file file_path
  end.

(** [get_search(pattern, path, glob, case_sensitive, max_results)] *)
Variable get_search :
  string -> option string -> option string -> bool -> Z -> R.

(** [search(pattern, path, glob, case_sensitive, max_results)] *)
Definition search (g : Globals) (os : OS) (pattern : string)
    (path glob : option string) (case_sensitive : bool) (max_results : Z)
    : tool_reply R :=
  let search_path := path in
  let resolved :=
    match if_truthy search_path with
    | Some p =>
        let '(abs_path, error) := resolve_file_path g os p in
        match error with
        | Some e => inl e
        | None => inr abs_path
        end
    | None => inr search_path
    end in
  match resolved with
  | inl e => ErrorDict e
  | inr search_path =>
      let search_path :=
        match if_truthy search_path with
        | Some _ => search_path
        | None =>
            match if_truthy (get_active_workspace g) with
            | Some active => Some active
            | None => search_path
            end
        end in
      Result (get_search pattern search_path glob case_sensitive max_results)
             "ripgrep"
  end.

(** [get_lsp_client(workspace).hover(file, line, column)]: [None] for an
    empty answer, else its ["contents"]. *)
Variable C : Type.
Variable lsp_hover : string -> option string -> Z -> Z -> outcome (option C).
(** [rope_hover(file, line, column)] *)
Variable rope_hover : option string -> Z -> Z -> R.

(** [hover(file, line, column, backend)] *)
Definition hover (cfg : ServerConfig) (g : Globals) (os : OS) (file : string)
    (line column : Z) (backend : option string)
    : tool_reply (hover_payload C R) :=
  let '(abs_file, error) := resolve_file_path g os file in
  match error with
  | Some e => ErrorDict e
  | None =>
      let effective_backend :=
        Server._get_effective_backend cfg "hover" backend in
      match effective_backend with
      | PYRIGHT =>
          match _find_workspace g abs_file with
          | Raised e => Failure e "pyright"
          | Returned workspace =>
              match lsp_hover workspace abs_file line column with
              | Raised e => Failure e "pyright"
              | Returned result => Result (PyrightContents result) "pyright"
              end
          end
      | ROPE => Result (RopeResult (rope_hover abs_file line column)) "rope"
      end
  end.

End Tools.

End ServerTools.

(** * Specification-level notions and sample worlds *)

(** ** Backend routing *)

(** The backend a per-call [backend] argument names, if it names one. *)
Definition explicit_backend (backend : option string) : option Config.Backend :=
  match backend with
  | Some s =>
      if PyStr.truthy s then Config.Backend_of_value (PyStr.lower s) else None
  | None => None
  end.

(** The backend an exclusive tool is pinned to. *)
Definition pinned_backend (tool : string) : option Config.Backend :=
  if decide (tool ∈ Config.ROPE_ONLY_TOOLS) then Some Config.ROPE
  else if decide (tool ∈ Config.PYRIGHT_ONLY_TOOLS) then Some Config.PYRIGHT
  else None.

(** ** Workspace containment *)

(** Containment anchored at a separator: [p] is the directory [w] or lies
    below it. *)
Definition is_descendant (w p : string) : bool :=
  (String.eqb p w
   || Posixpath.startswith p (if Posixpath.endswith_sep w then w else w +:+ "/"))%bool.

Definition in_list (p : string) (l : list string) : bool :=
  existsb (String.eqb p) l.

(** A POSIX machine with the given current directory, existing paths,
    executable paths and configuration files. *)
Definition posix_os (cwd : string) (existing executable : list string)
    (load : string -> file_load) : OS :=
  mkOS cwd (fun p => in_list p existing) (fun p => in_list p executable)
       load "/usr/bin/python3" false.

Definition no_config (p : string) : file_load := Unreadable.

Definition os_home : OS :=
  posix_os "/home/u" ["/usr/bin/python3"; "/etc/hosts"] ["/usr/bin/python3"]
           no_config.

Definition globals_empty : Config.Globals := Config.mkGlobals ∅ None None.

Definition globals_work : Config.Globals :=
  Config.mkGlobals ∅ None (Some "/work").

(** The path [resolve_file_path] normalizes. *)
Definition candidate_path (g : Config.Globals) (os : OS) (file_path : string)
    : string :=
  Posixpath.abspath (getcwd os)
    (if negb (Pathlib.is_absolute (Pathlib.parse file_path)) then
       match Config.if_truthy (Config._active_workspace g) with
       | Some w => Posixpath.join w file_path
       | None => Posixpath.abspath (getcwd os) file_path
       end
     else Pathlib.str (Pathlib.parse file_path)).


(** A string without a separator. *)
Fixpoint has_sep (s : string) : bool :=
  match s with
  | EmptyString => false
  | String c s' => (Ascii.eqb c Posixpath.sep || has_sep s')%bool
  end.

(** A component [normpath] keeps as it is below a root. *)
Definition plain (c : string) : bool :=
  (negb (String.eqb c "") && negb (String.eqb c ".")
   && negb (String.eqb c "..") && negb (has_sep c))%bool.

(** A non-empty component without a separator. *)
Definition kept (c : string) : bool :=
  (negb (String.eqb c "") && negb (has_sep c))%bool.

(** The absolute path with [n] leading separators and the given
    components. *)
Definition abs_form (n : nat) (comps : list string) : string :=
  Posixpath.slashes n +:+ Posixpath.join_sep comps.

(** ** Interpreter discovery, as the specification words it *)

(** First match wins. *)
Fixpoint first_some {A} (candidates : list (option A)) : option A :=
  match candidates with
  | [] => None
  | Some a :: _ => Some a
  | None :: candidates' => first_some candidates'
  end.

(** The platform-conventional interpreter below an environment directory. *)
Definition interpreter_subpath (os : OS) : Pathlib.Path :=
  if win32 os
  then Pathlib.mkPath "" ["Scripts"; "python.exe"]
  else Pathlib.mkPath "" ["bin"; "python"].

(** A candidate counts only if it exists. *)
Definition existing (os : OS) (p : Pathlib.Path) : option string :=
  if path_exists os p then Some (Pathlib.str p) else None.

Definition string_entry (key : string) (table : list (string * Py.value))
    : option string :=
  match Py.assoc key table with
  | Some (Py.VStr s) => Some s
  | _ => None
  end.

(** What a type-checker configuration table declares: the direct
    interpreter path, resolved against the workspace root unless absolute,
    or else the named environment below the environment root. *)
Definition declared_interpreter (os : OS) (root : Pathlib.Path)
    (table : list (string * Py.value)) : option string :=
  first_some
    [ match string_entry "pythonPath" table with
      | Some s => existing os (root // Pathlib.parse s)
      | None => None
      end;
      match string_entry "venvPath" table, string_entry "venv" table with
      | Some r, Some n =>
          if (PyStr.truthy r && PyStr.truthy n)%bool
          then existing os (root // Pathlib.parse r // Pathlib.parse n
                            // interpreter_subpath os)
          else None
      | _, _ => None
      end ].

Definition subtable (key : string) (table : list (string * Py.value))
    : list (string * Py.value) :=
  match Py.assoc key table with
  | Some (Py.VDict t) => t
  | _ => []
  end.

(** The configuration tables of a workspace that can be read, in the order
    they are consulted: [pyrightconfig.json], then [tool.pyright] of
    [pyproject.toml]. *)
Definition config_tables (os : OS) (root : Pathlib.Path)
    : list (list (string * Py.value)) :=
  (let f := root // Pathlib.parse "pyrightconfig.json" in
   if path_exists os f then
     match fs_load os (Pathlib.str f) with
     | Parsed (Py.VDict d) => [d]
     | _ => []
     end
   else [])
  ++
  (let f := root // Pathlib.parse "pyproject.toml" in
   if path_exists os f then
     match fs_load os (Pathlib.str f) with
     | Parsed (Py.VDict top) => [subtable "pyright" (subtable "tool" top)]
     | _ => []
     end
   else []).

(** The five steps of the resolution, first match wins. *)
Definition locate (g : Config.Globals) (os : OS) (workspace : string) : string :=
  let w := Posixpath.abspath (getcwd os) workspace in
  let root := Pathlib.parse w in
  default (sys_executable os)
    (first_some
       ([ Config._python_paths g !! w; Config._global_python_path g ]
        ++ map (declared_interpreter os root) (config_tables os root)
        ++ map (fun d => existing os (root // Pathlib.parse d
                                      // interpreter_subpath os))
               [".venv"; "venv"; "env"])).

(** The expected shape of a configuration: the three keys, where present,
    hold strings, and [tool] and [tool.pyright] are tables. *)
Definition entry_ok (key : string) (table : list (string * Py.value)) : bool :=
  match Py.assoc key table with
  | None | Some (Py.VStr _) => true
  | Some _ => false
  end.

Definition table_ok (table : list (string * Py.value)) : bool :=
  (entry_ok "pythonPath" table && entry_ok "venvPath" table
   && entry_ok "venv" table)%bool.

Definition subtable_ok (key : string) (table : list (string * Py.value)) : bool :=
  match Py.assoc key table with
  | None | Some (Py.VDict _) => true
  | Some _ => false
  end.

Definition json_ok (os : OS) (root : Pathlib.Path) : bool :=
  let f := root // Pathlib.parse "pyrightconfig.json" in
  if path_exists os f then
    match fs_load os (Pathlib.str f) with
    | Parsed (Py.VDict d) => table_ok d
    | Parsed _ | Undecodable | TooDeep => false
    | Unreadable | Malformed => true
    end
  else true.

Definition toml_ok (os : OS) (root : Pathlib.Path) : bool :=
  let f := root // Pathlib.parse "pyproject.toml" in
  if path_exists os f then
    match fs_load os (Pathlib.str f) with
    | Parsed (Py.VDict top) =>
        (subtable_ok "tool" top
         && subtable_ok "pyright" (subtable "tool" top)
         && table_ok (subtable "pyright" (subtable "tool" top)))%bool
    | Parsed _ | Undecodable | TooDeep => false
    | Unreadable | Malformed => true
    end
  else true.

Definition configs_ok (os : OS) (workspace : string) : bool :=
  let root := Pathlib.parse (Posixpath.abspath (getcwd os) workspace) in
  (json_ok os root && toml_ok os root)%bool.

(** Paths whose components are not empty, as [Path(...)] builds them. *)
Definition wf_path (p : Pathlib.Path) : Prop :=
  Forall (fun c => PyStr.truthy c = true) (Pathlib.parts p).

(** The project [/proj] whose [pyrightconfig.json] holds [table]; besides
    the configuration only the paths in [others] exist. *)
Definition os_with_json (config : Py.value) (others : list string) : OS :=
  posix_os "/" ("/proj/pyrightconfig.json" :: others) []
    (fun p => if String.eqb p "/proj/pyrightconfig.json"
              then Parsed config else Unreadable).

(** [{"venvPath": ".", "venv": "myenv"}] and the interpreter of [myenv]. *)
Definition os_proj : OS :=
  os_with_json (Py.VDict [("venvPath", Py.VStr "."); ("venv", Py.VStr "myenv")])
               ["/proj"; "/proj/myenv/bin/python"].

(** A configuration that is the JSON array [[]]. *)
Definition os_array_config : OS := os_with_json (Py.VList []) ["/proj"].

(** The array [[]] beside the interpreter of [.venv]. *)
Definition os_array_config_venv : OS :=
  os_with_json (Py.VList []) ["/proj"; "/proj/.venv/bin/python"].

(** [{"pythonPath": 3}] *)
Definition os_number_config : OS :=
  os_with_json (Py.VDict [("pythonPath", Py.VInt 3)]) ["/proj"].

(** ** Text edits *)

Definition pos_le (a b : Server.Position) : bool :=
  negb (Server.key_lt (Server.line b, Server.character b)
                      (Server.line a, Server.character a)).

(** Two edits do not overlap when one ends before the other starts. *)
Definition disjoint (a b : Server.TextEdit) : bool :=
  (pos_le (Server.end_ (Server.range a)) (Server.start (Server.range b))
   || pos_le (Server.end_ (Server.range b)) (Server.start (Server.range a)))%bool.

Fixpoint non_overlapping (es : list Server.TextEdit) : bool :=
  match es with
  | [] => true
  | e :: es' => (forallb (disjoint e) es' && non_overlapping es')%bool
  end.

(** [replace(l, c1, c2, text)]: the edit of line [l] from character [c1] to
    character [c2]. *)
Definition replace_in_line (l c1 c2 : nat) (text : string) : Server.TextEdit :=
  Server.mkTextEdit
    (Server.mkRange (Server.mkPosition l c1) (Server.mkPosition l c2)) text.

Definition two_lines : string := "line1" +:+ Config.nl +:+ "line2" +:+ Config.nl.
Definition TWO_LINES : string := "LINE1" +:+ Config.nl +:+ "LINE2" +:+ Config.nl.
Definition edit_line0 : Server.TextEdit := replace_in_line 0 0 5 "LINE1".
Definition edit_line1 : Server.TextEdit := replace_in_line 1 0 5 "LINE2".

(** Two insertions at the start of the file. *)
Definition insert_X : Server.TextEdit := replace_in_line 0 0 0 "X".
Definition insert_Y : Server.TextEdit := replace_in_line 0 0 0 "Y".

(** The replacement of the first character of the file. *)
Definition replace_first : Server.TextEdit := replace_in_line 0 0 1 "Y".

(** ** Notions for the remaining operations *)

(** Every stored per-tool override belongs to a shared tool. *)
Definition overrides_shared (cfg : Config.ServerConfig) : Prop :=
  dom (Config.tool_backends cfg) ⊆ Config.SHARED_TOOLS.

(** An environment that names the default with the old prefix and the
    backend of [hover] with the new one. *)
Definition environ_sample : gmap string string :=
  {[ "ROPE_MCP_BACKEND" := "PyRight";
     "PYTHON_LSP_MCP_HOVER_BACKEND" := "ROPE";
     "PYTHON_LSP_MCP_SYMBOLS_BACKEND" := "jedi" ]}.

(** A workspace as [set_active_workspace] stores it: absolute and
    normalized. *)
Definition normal_abs (w : string) : Prop :=
  Posixpath.isabs w = true /\ Posixpath.normpath w = w.

Definition globals_proj : Config.Globals :=
  Config.mkGlobals ∅ None (Some "/proj").

(** A path none of whose components is [..]. *)
Definition no_dotdot (f : string) : bool :=
  forallb (fun c => negb (String.eqb c "..")) (Posixpath.split f).

(** The ["backend"] entry of a reply, absent from an error dictionary. *)
Definition reply_backend {R} (r : ServerTools.tool_reply R) : option string :=
  match r with
  | ServerTools.ErrorDict _ => None
  | ServerTools.Result _ backend => Some backend
  | ServerTools.Failure _ backend => Some backend
  end.

(** A machine on which [/proj] is the only directory. *)
Definition isdir_proj (p : string) : bool := String.eqb p "/proj".


(** The file a change of a workspace edit is applied to. *)
Definition target_path (win32 : bool) (uri : string) : string :=
  let file_path := Server.strip_scheme 0 uri in
  if (win32 && Posixpath.startswith file_path "/")%bool
  then Server.drop 1 file_path else file_path.

(** Two files of [/proj]; [a.py] is also reached as [/proj/./a.py]. *)
Definition inode_of_proj (p : string) : option nat :=
  if (String.eqb p "/proj/a.py" || String.eqb p "/proj/./a.py")%bool
  then Some 1
  else if String.eqb p "/proj/b.py" then Some 2 else None.

Definition inodes_proj : gmap nat Server.inode :=
  {[ 1 := Server.Regular two_lines true;
     2 := Server.Regular two_lines true ]}.

(** A string in which [file://] does not occur. *)
Definition scheme_free (p : string) : Prop :=
  forall n, String.prefix "file://" (Server.drop n p) = false.

(** Edits in descending order of their start positions; edits with the
    same start may follow each other. *)
Definition descending (l : list Server.TextEdit) : Prop :=
  StronglySorted
    (fun x y => Server.key_lt (Server.sort_key x) (Server.sort_key y) = false) l.

(** * Properties *)

(** ** Backend routing *)

Lemma effective_backend_cases cfg tool backend :
  Server._get_effective_backend cfg tool backend =
  match explicit_backend backend with
  | Some b => b
  | None => Config.get_backend_for cfg tool
  end.
Proof.
  unfold Server._get_effective_backend, explicit_backend.
  destruct backend as [s|]; [|reflexivity].
  destruct (PyStr.truthy s); [|reflexivity].
  destruct (Config.Backend_of_value (PyStr.lower s)); reflexivity.
Qed.

Lemma Backend_of_value_None v :
  v <> "rope" -> v <> "pyright" -> Config.Backend_of_value v = None.
Proof.
  intros Hr Hp. unfold Config.Backend_of_value.
  destruct (String.eqb_spec v "rope"); [contradiction|].
  destruct (String.eqb_spec v "pyright"); [contradiction|reflexivity].
Qed.

Lemma Backend_of_value_lower_value b :
  Config.Backend_of_value (PyStr.lower (Config.Backend_value b)) = Some b.
Proof. destruct b; reflexivity. Qed.

Lemma get_backend_for_pinned cfg tool p :
  pinned_backend tool = Some p -> Config.get_backend_for cfg tool = p.
Proof.
  unfold pinned_backend, Config.get_backend_for.
  repeat case_decide; congruence.
Qed.

Lemma shared_not_pinned tool :
  tool ∈ Config.SHARED_TOOLS -> pinned_backend tool = None.
Proof.
  unfold Config.SHARED_TOOLS. rewrite !elem_of_union, !elem_of_singleton.
  intros H. decompose [or] H; subst; vm_compute; reflexivity.
Qed.

Lemma get_backend_for_unpinned cfg tool :
  pinned_backend tool = None ->
  Config.get_backend_for cfg tool =
  default (Config.default_backend cfg) (Config.tool_backends cfg !! tool).
Proof.
  unfold pinned_backend, Config.get_backend_for.
  repeat case_decide; try congruence.
  intros _. destruct (Config.tool_backends cfg !! tool); reflexivity.
Qed.


(** What holds of a pinned tool in every stored preference state: without
    a per-call argument that names a backend the effective backend is the
    pinned one, and no mutator changes the effective backend. *)
Lemma pinned_tool_routing tool p :
  pinned_backend tool = Some p ->
  forall cfg : Config.ServerConfig,
    (forall backend, explicit_backend backend = None ->
       Server._get_effective_backend cfg tool backend = p) /\
    (forall backend b, explicit_backend backend = Some b ->
       Server._get_effective_backend cfg tool backend = b) /\
    (forall backend b t,
       Server._get_effective_backend (Config.set_backend cfg b t) tool backend
       = Server._get_effective_backend cfg tool backend) /\
    (forall backend b,
       Server._get_effective_backend (Config.set_all_backends cfg b) tool backend
       = Server._get_effective_backend cfg tool backend) /\
    (forall backend s t,
       Server._get_effective_backend (snd (Server.set_backend cfg s t)) tool backend
       = Server._get_effective_backend cfg tool backend).
Proof.
  intros Hp cfg.
  assert (Hpin : forall c, Config.get_backend_for c tool = p)
    by (intros c; apply get_backend_for_pinned, Hp).
  repeat split; intros; rewrite !effective_backend_cases, ?Hpin.
  - rewrite H. reflexivity.
  - rewrite H. reflexivity.
  - reflexivity.
  - reflexivity.
  - reflexivity.
Qed.

Example pinned_tool_routing_rename :
  pinned_backend "rename" = Some Config.ROPE /\
  Server._get_effective_backend
    (Config.mkServerConfig Config.PYRIGHT ∅) "rename" (Some "mypy")
  = Config.ROPE.
Proof.
  assert (Hp : pinned_backend "rename" = Some Config.ROPE)
    by (vm_compute; reflexivity).
  split; [exact Hp|].
  refine (proj1 (pinned_tool_routing "rename" Config.ROPE Hp
                   (Config.mkServerConfig Config.PYRIGHT ∅)) (Some "mypy") _).
  vm_compute. reflexivity.
Defined.

(** C7 (as stated, refuted): the [set_backend] tool called without a tool
    drops a stored per-tool override. *)
Lemma C7_tool_without_tool_clears_overrides :
  Config.tool_backends
    (snd (Server.set_backend
            (Config.mkServerConfig Config.ROPE {[ "hover" := Config.PYRIGHT ]})
            "rope" None))
  <> Config.tool_backends
       (Config.mkServerConfig Config.ROPE {[ "hover" := Config.PYRIGHT ]}).
Proof.
  intros H. apply (f_equal (fun m => m !! "hover")) in H.
  vm_compute in H. discriminate H.
Qed.

(** C7 (amended): [ServerConfig.set_backend] without a tool sets only the
    default backend and leaves the per-tool override map as it was; the
    [set_backend] tool of the server without a tool (absent or empty) goes
    through [set_all_backends]: it sets the default and empties the
    override map. *)
Theorem C7_set_backend_without_tool cfg b :
  Config.set_backend cfg b None
  = Config.mkServerConfig b (Config.tool_backends cfg) /\
  (forall tool, PyStr.opt_truthy tool = false ->
     Server.set_backend cfg (Config.Backend_value b) tool
     = (Server.DefaultBackendSet (Config.Backend_value b) Config.SHARED_TOOLS,
        Config.mkServerConfig b ∅)).
Proof.
  split; [reflexivity|].
  intros tool Ht. unfold Server.set_backend.
  rewrite Backend_of_value_lower_value.
  destruct tool as [t|]; [|reflexivity].
  simpl in Ht. rewrite Ht. reflexivity.
Qed.

Lemma C7_set_backend_without_tool_witness :
  PyStr.opt_truthy None = false /\
  Server.set_backend
    (Config.mkServerConfig Config.ROPE {[ "hover" := Config.PYRIGHT ]})
    "pyright" None
  = (Server.DefaultBackendSet "pyright" Config.SHARED_TOOLS,
     Config.mkServerConfig Config.PYRIGHT ∅).
Proof.
  split; [reflexivity|].
  apply (proj2 (C7_set_backend_without_tool
                  (Config.mkServerConfig Config.ROPE {[ "hover" := Config.PYRIGHT ]})
                  Config.PYRIGHT) None).
  reflexivity.
Defined.

(** C8: after [set_all_backends(B)] the default is [B], no per-tool
    override is left, and the effective backend of every shared tool,
    computed without a per-call argument, is [B], whatever was stored
    before. *)
Theorem C8_set_all_backends_routes_shared_tools cfg B tool :
  tool ∈ Config.SHARED_TOOLS ->
  Config.default_backend (Config.set_all_backends cfg B) = B /\
  Config.tool_backends (Config.set_all_backends cfg B) = ∅ /\
  Server._get_effective_backend (Config.set_all_backends cfg B) tool None = B.
Proof.
  intros Hshared. repeat split.
  rewrite effective_backend_cases. simpl.
  rewrite get_backend_for_unpinned by (apply shared_not_pinned, Hshared).
  simpl. rewrite lookup_empty. reflexivity.
Qed.

Lemma C8_set_all_backends_routes_shared_tools_witness :
  "hover" ∈ Config.SHARED_TOOLS /\
  Server._get_effective_backend
    (Config.set_all_backends
       (Config.mkServerConfig Config.ROPE {[ "hover" := Config.ROPE ]})
       Config.PYRIGHT)
    "hover" None = Config.PYRIGHT.
Proof.
  assert (Hin : "hover" ∈ Config.SHARED_TOOLS)
    by (unfold Config.SHARED_TOOLS; set_solver).
  split; [exact Hin|].
  apply (C8_set_all_backends_routes_shared_tools
           (Config.mkServerConfig Config.ROPE {[ "hover" := Config.ROPE ]})
           Config.PYRIGHT "hover" Hin).
Defined.

(** C10: a per-call backend string that, lowercased, is neither ["rope"]
    nor ["pyright"] is ignored: the effective backend is the one computed
    without a per-call argument, that is the one [get_backend_for] gives
    from the stored override or the default. *)
Theorem C10_unknown_backend_string_ignored cfg tool s :
  PyStr.lower s <> "rope" -> PyStr.lower s <> "pyright" ->
  Server._get_effective_backend cfg tool (Some s)
  = Server._get_effective_backend cfg tool None /\
  Server._get_effective_backend cfg tool (Some s)
  = Config.get_backend_for cfg tool.
Proof.
  intros Hr Hp. rewrite !effective_backend_cases. simpl.
  rewrite (Backend_of_value_None _ Hr Hp).
  destruct (PyStr.truthy s); split; reflexivity.
Qed.

Lemma C10_unknown_backend_string_ignored_witness :
  PyStr.lower "MyPy" <> "rope" /\ PyStr.lower "MyPy" <> "pyright" /\
  Server._get_effective_backend
    (Config.mkServerConfig Config.ROPE {[ "hover" := Config.PYRIGHT ]})
    "hover" (Some "MyPy")
  = Server._get_effective_backend
      (Config.mkServerConfig Config.ROPE {[ "hover" := Config.PYRIGHT ]})
      "hover" None.
Proof.
  assert (Hr : PyStr.lower "MyPy" <> "rope") by (vm_compute; discriminate).
  assert (Hp : PyStr.lower "MyPy" <> "pyright") by (vm_compute; discriminate).
  split; [exact Hr|]. split; [exact Hp|].
  apply (C10_unknown_backend_string_ignored
           (Config.mkServerConfig Config.ROPE {[ "hover" := Config.PYRIGHT ]})
           "hover" "MyPy" Hr Hp).
Defined.

(** ** Workspace containment *)

Lemma resolve_outside_prefix g os file_path w :
  Config.if_truthy (Config._active_workspace g) = Some w ->
  Posixpath.startswith (candidate_path g os file_path) w = false ->
  Config.resolve_file_path g os file_path =
  (None, Some (Config.mkError "Context Mismatch"
                (Config.mismatch_message file_path
                   (candidate_path g os file_path) w)
                w (candidate_path g os file_path))).
Proof.
  intros Hw Hout. unfold Config.resolve_file_path.
  fold (candidate_path g os file_path). rewrite Hw, Hout. reflexivity.
Qed.

Lemma resolve_inside_prefix g os file_path w :
  Config.if_truthy (Config._active_workspace g) = Some w ->
  Posixpath.startswith (candidate_path g os file_path) w = true ->
  Config.resolve_file_path g os file_path =
  (Some (candidate_path g os file_path), None).
Proof.
  intros Hw Hin. unfold Config.resolve_file_path.
  fold (candidate_path g os file_path). rewrite Hw, Hin. reflexivity.
Qed.

Lemma resolve_no_workspace g os file_path :
  Config.if_truthy (Config._active_workspace g) = None ->
  Config.resolve_file_path g os file_path =
  (Some (candidate_path g os file_path), None).
Proof.
  intros Hw. unfold Config.resolve_file_path.
  fold (candidate_path g os file_path). rewrite Hw. reflexivity.
Qed.

(** C1 (the code at the failing input): with active workspace [/work], the
    file [/work2/a.py] of the sibling directory [/work2] is not a descendant
    of the workspace, yet it is resolved without an error. *)
Theorem C1_sibling_directory_accepted :
  Config.get_active_workspace globals_work = Some "/work" /\
  is_descendant "/work" "/work2/a.py" = false /\
  Config.resolve_file_path globals_work os_home "/work2/a.py"
  = (Some "/work2/a.py", None).
Proof. vm_compute. repeat split. Qed.

(** ** Splitting and joining paths *)

Module PathFacts.
Import Posixpath.

Lemma split_no_sep s : has_sep s = false -> split s = [s].
Proof.
  induction s as [|c s IH]; simpl; [reflexivity|].
  intros H. apply orb_false_iff in H as [Hc Hs].
  rewrite Hc, (IH Hs). reflexivity.
Qed.

Lemma split_app_sep c s :
  has_sep c = false -> split (c +:+ String sep s) = c :: split s.
Proof.
  induction c as [|a c IH]; simpl; intros H.
  - reflexivity.
  - apply orb_false_iff in H as [Ha Hc]. rewrite Ha, (IH Hc). reflexivity.
Qed.

Lemma split_join comps :
  comps <> [] -> Forall (fun c => has_sep c = false) comps ->
  split (join_sep comps) = comps.
Proof.
  induction comps as [|c comps IH]; [congruence|].
  intros _ Hall. inversion Hall as [|? ? Hc Hrest]; subst.
  destruct comps as [|c' comps'].
  - simpl. apply split_no_sep, Hc.
  - change (join_sep (c :: c' :: comps'))
      with (c +:+ String sep (join_sep (c' :: comps'))).
    rewrite split_app_sep by exact Hc.
    rewrite IH; [reflexivity|discriminate|exact Hrest].
Qed.

Lemma split_parts_no_sep s : Forall (fun c => has_sep c = false) (split s).
Proof.
  induction s as [|c s IH]; simpl.
  - constructor; [reflexivity|constructor].
  - destruct (Ascii.eqb c sep) eqn:Hc.
    + constructor; [reflexivity|exact IH].
    + destruct (split s) as [|w ws]; [repeat constructor; simpl; rewrite Hc; reflexivity|].
      inversion IH; subst. constructor; [|assumption].
      simpl. rewrite Hc. assumption.
Qed.

Lemma prefix_cons a s1 b s2 :
  String.prefix (String a s1) (String b s2)
  = (Ascii.eqb a b && String.prefix s1 s2)%bool.
Proof.
  change (String.prefix (String a s1) (String b s2))
    with (if ascii_dec a b then String.prefix s1 s2 else false).
  destruct (ascii_dec a b) as [->|Hne].
  - rewrite Ascii.eqb_refl. reflexivity.
  - apply Ascii.eqb_neq in Hne. rewrite Hne. reflexivity.
Qed.

Lemma prefix_empty s : String.prefix "" s = true.
Proof. destruct s; reflexivity. Qed.

Lemma startswith_sep_cons a r :
  startswith (String a r) "/" = Ascii.eqb a sep.
Proof.
  unfold startswith. rewrite prefix_cons, prefix_empty, andb_true_r.
  apply Ascii.eqb_sym.
Qed.

Lemma kept_head c : kept c = true -> startswith c "/" = false.
Proof.
  unfold kept. destruct c as [|a c]; [discriminate|].
  rewrite startswith_sep_cons. cbn [has_sep].
  destruct (Ascii.eqb a sep); [|reflexivity].
  rewrite andb_false_r. discriminate.
Qed.

Lemma join_kept_head comps :
  Forall (fun c => kept c = true) comps ->
  startswith (join_sep comps) "/" = false.
Proof.
  destruct comps as [|c comps]; [reflexivity|].
  intros H. inversion H as [|? ? Hc _]; subst.
  pose proof (kept_head c Hc) as Hh.
  destruct c as [|a c]; [discriminate|].
  rewrite startswith_sep_cons in Hh.
  destruct comps; unfold join_sep; cbn [String.concat].
  - rewrite startswith_sep_cons. exact Hh.
  - exact (eq_trans (startswith_sep_cons a _) Hh).
Qed.

Lemma initial_slashes_abs_form n comps :
  n = 1 \/ n = 2 -> Forall (fun c => kept c = true) comps ->
  initial_slashes (abs_form n comps) = n.
Proof.
  intros Hn Hk. pose proof (join_kept_head comps Hk) as Hh.
  unfold abs_form, initial_slashes, startswith in *.
  destruct Hn as [-> | ->]; cbn [slashes].
  - change ("/" +:+ join_sep comps) with (String "/" (join_sep comps)).
    rewrite !prefix_cons, ?prefix_empty, Hh. reflexivity.
  - change ("//" +:+ join_sep comps)
      with (String "/" (String "/" (join_sep comps))).
    rewrite !prefix_cons, ?prefix_empty, Hh. reflexivity.
Qed.

Lemma kept_no_sep comps :
  Forall (fun c => kept c = true) comps ->
  Forall (fun c => has_sep c = false) comps.
Proof.
  intros Hk. eapply Forall_impl; [exact Hk|].
  intros c H. unfold kept in H.
  apply andb_true_iff in H as [_ H]. apply negb_true_iff in H. exact H.
Qed.

(** The loop of [normpath] never looks at empty and dot components. *)
Lemma loop_filter n comps acc :
  normpath_loop n (filter (fun x => Pathlib.keep_part x = true) comps) acc
  = normpath_loop n comps acc.
Proof.
  revert acc. induction comps as [|c comps IH]; intros acc; [reflexivity|].
  destruct (Pathlib.keep_part c) eqn:Hk.
  - rewrite filter_cons_True by exact Hk.
    unfold Pathlib.keep_part in Hk. apply negb_true_iff in Hk.
    cbn [normpath_loop]. rewrite Hk.
    destruct (negb (String.eqb c "..")
              || (n =? 0)%nat && match acc with [] => true | _ => false end
              || match acc with last :: _ => String.eqb last ".." | [] => false end)%bool;
      apply IH.
  - rewrite filter_cons_False by (rewrite Hk; discriminate).
    unfold Pathlib.keep_part in Hk. apply negb_false_iff in Hk.
    cbn [normpath_loop]. rewrite Hk. apply IH.
Qed.

Lemma split_abs_form n comps :
  n = 1 \/ n = 2 -> Forall (fun c => kept c = true) comps ->
  normpath_loop n (split (abs_form n comps)) []
  = normpath_loop n comps [].
Proof.
  intros Hn Hk. unfold abs_form.
  assert (Hs : normpath_loop n (split (join_sep comps)) []
               = normpath_loop n comps []).
  { destruct comps as [|c comps]; [reflexivity|].
    rewrite split_join; [reflexivity|discriminate|apply kept_no_sep, Hk]. }
  destruct Hn as [-> | ->]; simpl; exact Hs.
Qed.

Lemma abs_form_nonempty n comps :
  n = 1 \/ n = 2 -> String.eqb (abs_form n comps) "" = false.
Proof. intros [-> | ->]; reflexivity. Qed.

(** [normpath] on a path already cut into components. *)
Lemma normpath_abs_form n comps :
  n = 1 \/ n = 2 -> Forall (fun c => kept c = true) comps ->
  normpath (abs_form n comps) = abs_form n (rev (normpath_loop n comps [])).
Proof.
  intros Hn Hk. unfold normpath.
  rewrite (abs_form_nonempty n comps Hn).
  rewrite (initial_slashes_abs_form n comps Hn Hk).
  rewrite (split_abs_form n comps Hn Hk).
  fold (abs_form n (rev (normpath_loop n comps []))).
  rewrite abs_form_nonempty by exact Hn. reflexivity.
Qed.

Lemma initial_slashes_isabs f :
  isabs f = true -> initial_slashes f = 1 \/ initial_slashes f = 2.
Proof.
  unfold isabs, initial_slashes. intros ->.
  destruct (startswith f "//" && negb (startswith f "///"))%bool; auto.
Qed.

Lemma isabs_nonempty f : isabs f = true -> String.eqb f "" = false.
Proof. destruct f; [discriminate|reflexivity]. Qed.

(** [normpath] of an absolute path, as an [abs_form]. *)
Lemma normpath_isabs f :
  isabs f = true ->
  normpath f
  = abs_form (initial_slashes f)
             (rev (normpath_loop (initial_slashes f) (split f) [])).
Proof.
  intros Habs. unfold normpath. rewrite (isabs_nonempty f Habs).
  fold (abs_form (initial_slashes f)
          (rev (normpath_loop (initial_slashes f) (split f) []))).
  rewrite abs_form_nonempty by (apply initial_slashes_isabs, Habs).
  reflexivity.
Qed.

Lemma plain_kept comps :
  Forall (fun c => plain c = true) comps ->
  Forall (fun c => kept c = true) comps.
Proof.
  intros H. eapply Forall_impl; [exact H|].
  intros c Hc. unfold plain in Hc. unfold kept.
  destruct (String.eqb c ""); [discriminate|].
  destruct (has_sep c); [|reflexivity].
  rewrite andb_false_r in Hc. discriminate.
Qed.

(** Below a root the loop of [normpath] leaves only plain components. *)
Lemma loop_plain n comps acc :
  n <> 0 ->
  Forall (fun c => has_sep c = false) comps ->
  Forall (fun c => plain c = true) acc ->
  Forall (fun c => plain c = true) (normpath_loop n comps acc).
Proof.
  intros Hn. revert acc.
  induction comps as [|c comps IH]; intros acc Hsep Hacc; [exact Hacc|].
  inversion Hsep as [|? ? Hc Hrest]; subst.
  cbn [normpath_loop].
  destruct (String.eqb c "" || String.eqb c ".")%bool eqn:Hskip;
    [apply IH; assumption|].
  apply orb_false_iff in Hskip as [He Hd].
  destruct (String.eqb c "..") eqn:Hdd.
  - assert (Hpop : (negb true
              || (n =? 0)%nat && match acc with [] => true | _ => false end
              || match acc with last :: _ => String.eqb last ".." | [] => false end)%bool
              = false).
    { apply Nat.eqb_neq in Hn. rewrite Hn. simpl.
      destruct acc as [|l acc']; [reflexivity|].
      inversion Hacc as [|? ? Hl _]; subst. unfold plain in Hl.
      destruct (String.eqb l ".."); [|reflexivity].
      rewrite andb_false_r in Hl. discriminate. }
    rewrite Hpop. apply IH; [assumption|].
    destruct acc; [constructor|]. inversion Hacc; assumption.
  - simpl. apply IH; [assumption|]. constructor; [|assumption].
    unfold plain. rewrite He, Hd, Hdd, Hc. reflexivity.
Qed.

(** On plain components the loop pushes every component. *)
Lemma loop_on_plain n comps acc :
  Forall (fun c => plain c = true) comps ->
  normpath_loop n comps acc = (rev comps ++ acc)%list.
Proof.
  revert acc. induction comps as [|c comps IH]; intros acc H; [reflexivity|].
  inversion H as [|? ? Hc Hrest]; subst.
  cbn [normpath_loop]. unfold plain in Hc.
  destruct (String.eqb c ""); [discriminate|].
  destruct (String.eqb c "."); [discriminate|].
  destruct (String.eqb c ".."); [discriminate|].
  simpl. rewrite IH by assumption. rewrite <- app_assoc. reflexivity.
Qed.

Lemma normpath_plain n comps :
  n = 1 \/ n = 2 -> Forall (fun c => plain c = true) comps ->
  normpath (abs_form n comps) = abs_form n comps.
Proof.
  intros Hn Hp.
  rewrite normpath_abs_form by (auto using plain_kept).
  rewrite loop_on_plain by exact Hp.
  rewrite app_nil_r, rev_involutive. reflexivity.
Qed.

Lemma normpath_loop_split_plain f :
  isabs f = true ->
  Forall (fun c => plain c = true)
         (rev (normpath_loop (initial_slashes f) (split f) [])).
Proof.
  intros Habs. apply Forall_rev, loop_plain.
  - destruct (initial_slashes_isabs f Habs) as [-> | ->]; discriminate.
  - apply split_parts_no_sep.
  - constructor.
Qed.

(** [normpath] is idempotent on absolute paths, and keeps them absolute. *)
Lemma normpath_idem f :
  isabs f = true -> normpath (normpath f) = normpath f.
Proof.
  intros Habs. rewrite (normpath_isabs f Habs).
  apply normpath_plain.
  - apply initial_slashes_isabs, Habs.
  - apply normpath_loop_split_plain, Habs.
Qed.

Lemma isabs_abs_form n comps : n = 1 \/ n = 2 -> isabs (abs_form n comps) = true.
Proof.
  intros [-> | ->]; exact (startswith_sep_cons "/"%char _).
Qed.

Lemma isabs_normpath f : isabs f = true -> isabs (normpath f) = true.
Proof.
  intros Habs. rewrite (normpath_isabs f Habs).
  apply isabs_abs_form, initial_slashes_isabs, Habs.
Qed.

Lemma parts_kept f :
  Forall (fun c => kept c = true)
         (filter (fun x => Pathlib.keep_part x = true) (split f)).
Proof.
  pose proof (split_parts_no_sep f) as Hsep.
  induction Hsep as [|c l Hc _ IH]; [constructor|].
  destruct (Pathlib.keep_part c) eqn:Hk.
  - rewrite filter_cons_True by exact Hk. constructor; [|exact IH].
    unfold Pathlib.keep_part in Hk. apply negb_true_iff in Hk.
    apply orb_false_iff in Hk as [He _].
    unfold kept. rewrite He, Hc. reflexivity.
  - rewrite filter_cons_False by (rewrite Hk; discriminate). exact IH.
Qed.

Lemma str_parse_isabs f :
  isabs f = true ->
  Pathlib.str (Pathlib.parse f)
  = abs_form (initial_slashes f)
             (filter (fun x => Pathlib.keep_part x = true) (split f)).
Proof.
  intros Habs. unfold Pathlib.str, Pathlib.parse. cbn [Pathlib.root Pathlib.parts].
  destruct (initial_slashes_isabs f Habs) as [-> | ->]; reflexivity.
Qed.

(** Going through [pathlib] does not change what [normpath] returns. *)
Lemma normpath_str_parse f :
  isabs f = true -> normpath (Pathlib.str (Pathlib.parse f)) = normpath f.
Proof.
  intros Habs. rewrite (str_parse_isabs f Habs).
  rewrite normpath_abs_form
    by (auto using initial_slashes_isabs, parts_kept).
  rewrite loop_filter. symmetry. apply normpath_isabs, Habs.
Qed.

Lemma is_absolute_parse f :
  Pathlib.is_absolute (Pathlib.parse f) = isabs f.
Proof.
  unfold Pathlib.is_absolute, Pathlib.parse, isabs, initial_slashes.
  cbn [Pathlib.root].
  destruct (startswith f "/"); [|reflexivity].
  destruct (startswith f "//" && negb (startswith f "///"))%bool; reflexivity.
Qed.

Lemma isabs_join cwd f : isabs cwd = true -> isabs (join cwd f) = true.
Proof.
  intros Hc. unfold join.
  destruct (startswith f "/") eqn:Hf; [exact Hf|].
  destruct cwd as [|a cwd]; [discriminate|].
  unfold isabs in *. rewrite startswith_sep_cons in Hc.
  destruct (String.eqb (String a cwd) "" || endswith_sep (String a cwd))%bool;
    exact (eq_trans (startswith_sep_cons a _) Hc).
Qed.

End PathFacts.

(** ** The result of [resolve_file_path] *)

Lemma abspath_isabs cwd f :
  Posixpath.isabs f = true -> Posixpath.abspath cwd f = Posixpath.normpath f.
Proof. intros H. unfold Posixpath.abspath. rewrite H. reflexivity. Qed.

Lemma abspath_normal cwd f :
  Posixpath.isabs cwd = true ->
  Posixpath.isabs (Posixpath.abspath cwd f) = true /\
  Posixpath.normpath (Posixpath.abspath cwd f) = Posixpath.abspath cwd f.
Proof.
  intros Hcwd. unfold Posixpath.abspath.
  assert (Habs : Posixpath.isabs
                   (if Posixpath.isabs f then f else Posixpath.join cwd f) = true).
  { destruct (Posixpath.isabs f) eqn:Hf; [exact Hf|].
    apply PathFacts.isabs_join, Hcwd. }
  split; [apply PathFacts.isabs_normpath | apply PathFacts.normpath_idem];
    exact Habs.
Qed.

(** Without an active workspace the path that is normalized is
    [abspath(file_path)]. *)
Lemma candidate_path_no_workspace g os file_path :
  Config.get_active_workspace g = None ->
  Posixpath.isabs (getcwd os) = true ->
  candidate_path g os file_path = Posixpath.abspath (getcwd os) file_path.
Proof.
  intros Hws Hcwd. unfold candidate_path.
  unfold Config.get_active_workspace in Hws. rewrite Hws. cbn [Config.if_truthy PyStr.opt_truthy].
  rewrite PathFacts.is_absolute_parse.
  destruct (Posixpath.isabs file_path) eqn:Hf; cbn [negb].
  - rewrite abspath_isabs.
    + rewrite PathFacts.normpath_str_parse by exact Hf.
      symmetry. apply abspath_isabs, Hf.
    + rewrite PathFacts.str_parse_isabs by exact Hf.
      apply PathFacts.isabs_abs_form, PathFacts.initial_slashes_isabs, Hf.
  - destruct (abspath_normal (getcwd os) file_path Hcwd) as [Ha Hn].
    rewrite abspath_isabs by exact Ha. exact Hn.
Qed.

(** C9: [resolve_file_path] returns either a path and no error, or no path
    and an error, never both and never neither; without an active
    workspace it returns the path, which is [abspath(file_path)]: relative
    inputs are joined onto the current directory, and the result is
    absolute and normalized. *)
Theorem C9_resolve_file_path_one_component g os file_path :
  ((exists p, Config.resolve_file_path g os file_path = (Some p, None)) \/
   (exists e, Config.resolve_file_path g os file_path = (None, Some e))) /\
  (Config.get_active_workspace g = None ->
   exists p,
     Config.resolve_file_path g os file_path = (Some p, None) /\
     (Posixpath.isabs (getcwd os) = true ->
      p = Posixpath.abspath (getcwd os) file_path /\
      Posixpath.isabs p = true /\
      Posixpath.normpath p = p)).
Proof.
  split.
  - destruct (Config.if_truthy (Config._active_workspace g)) as [w|] eqn:Hw.
    + destruct (Posixpath.startswith (candidate_path g os file_path) w) eqn:Hin.
      * left. eexists. apply (resolve_inside_prefix _ _ _ _ Hw Hin).
      * right. eexists. apply (resolve_outside_prefix _ _ _ _ Hw Hin).
    + left. eexists. apply (resolve_no_workspace _ _ _ Hw).
  - intros Hws. exists (candidate_path g os file_path). split.
    + apply resolve_no_workspace.
      unfold Config.get_active_workspace in Hws. rewrite Hws. reflexivity.
    + intros Hcwd.
      rewrite (candidate_path_no_workspace g os file_path Hws Hcwd).
      split; [reflexivity|]. apply abspath_normal, Hcwd.
Qed.

Lemma C9_resolve_file_path_one_component_witness :
  Config.get_active_workspace globals_empty = None /\
  Posixpath.isabs (getcwd os_home) = true /\
  exists p,
    Config.resolve_file_path globals_empty os_home "x/../y.py" = (Some p, None) /\
    p = Posixpath.abspath (getcwd os_home) "x/../y.py".
Proof.
  split; [reflexivity|]. split; [reflexivity|].
  destruct (proj2 (C9_resolve_file_path_one_component
                     globals_empty os_home "x/../y.py") eq_refl)
    as [p [Hres Hp]].
  exists p. split; [exact Hres|]. apply (Hp eq_refl).
Defined.

Example resolve_relative_no_workspace :
  Config.resolve_file_path globals_empty os_home "x/../y.py"
  = (Some "/home/u/y.py", None).
Proof. vm_compute. reflexivity. Qed.

Example resolve_relative_in_workspace :
  Config.resolve_file_path (Config.mkGlobals ∅ None (Some "/proj")) os_home
    "sub/a.py"
  = (Some "/proj/sub/a.py", None).
Proof. vm_compute. reflexivity. Qed.

Example resolve_other_project :
  fst (Config.resolve_file_path (Config.mkGlobals ∅ None (Some "/proj"))
         os_home "/other/a.py") = None /\
  option_map Config.current_workspace
    (snd (Config.resolve_file_path (Config.mkGlobals ∅ None (Some "/proj"))
            os_home "/other/a.py")) = Some "/proj".
Proof. vm_compute. split; reflexivity. Qed.

(** ** The interpreter setter *)



(** ** Interpreter discovery *)

Ltac break_match :=
  match goal with
  | |- context [match ?x with _ => _ end] => destruct x eqn:?
  end.

Lemma truediv_guard root p :
  (if negb (Pathlib.is_absolute p) then root // p else p) = root // p.
Proof.
  unfold Pathlib.truediv. destruct (Pathlib.is_absolute p); reflexivity.
Qed.

Lemma truediv_subpath os v :
  (if win32 os
   then v // Pathlib.parse "Scripts" // Pathlib.parse "python.exe"
   else v // Pathlib.parse "bin" // Pathlib.parse "python")
  = v // interpreter_subpath os.
Proof.
  unfold interpreter_subpath.
  destruct (win32 os); unfold Pathlib.truediv; cbn; rewrite <- app_assoc;
    reflexivity.
Qed.

Lemma existing_code os p :
  (if path_exists os p then Some (Pathlib.str p) else None) = existing os p.
Proof. reflexivity. Qed.

(** On a table of the expected shape [_extract_python_path_from_pyright]
    raises nothing and returns what the table declares. *)
Lemma extract_declared os d root :
  table_ok d = true ->
  Config._extract_python_path_from_pyright os (Py.VDict d) root
  = Py.Ok (declared_interpreter os root d).
Proof.
  intros H. unfold table_ok, entry_ok in H.
  unfold Config._extract_python_path_from_pyright, declared_interpreter,
    string_entry.
  cbn [Py.contains Py.getitem Py.get Py.bind].
  destruct (Py.assoc "pythonPath" d) as [[| | |s| |]|]; try discriminate;
  destruct (Py.assoc "venvPath" d) as [[| | |r| |]|]; try discriminate;
  destruct (Py.assoc "venv" d) as [[| | |n| |]|]; try discriminate;
  cbn [Py.to_path Py.truediv Py.bind Py.truthy first_some andb];
  rewrite ?truediv_guard, ?truediv_subpath, ?existing_code, ?andb_false_r;
  repeat break_match; reflexivity.
Qed.

Lemma truthy_append a b :
  PyStr.truthy (a +:+ b) = (PyStr.truthy a || PyStr.truthy b)%bool.
Proof. destruct a; reflexivity. Qed.

Lemma join_sep_truthy c comps :
  PyStr.truthy c = true -> PyStr.truthy (Posixpath.join_sep (c :: comps)) = true.
Proof.
  intros Hc. unfold Posixpath.join_sep. cbn [String.concat].
  destruct comps; [exact Hc|]. rewrite truthy_append, Hc. reflexivity.
Qed.

(** [str] of a path is never the empty string. *)
Lemma str_truthy p : wf_path p -> PyStr.truthy (Pathlib.str p) = true.
Proof.
  unfold wf_path, Pathlib.str. intros Hwf.
  destruct (String.eqb_spec (Pathlib.root p) "") as [_|Hroot].
  - destruct (Pathlib.parts p) as [|c comps]; [reflexivity|].
    inversion Hwf; subst. apply join_sep_truthy. assumption.
  - rewrite truthy_append. destruct (Pathlib.root p); [congruence|reflexivity].
Qed.

Lemma wf_parse s : wf_path (Pathlib.parse s).
Proof.
  unfold wf_path, Pathlib.parse. cbn [Pathlib.parts].
  induction (Posixpath.split s) as [|c l IH]; [constructor|].
  destruct (Pathlib.keep_part c) eqn:Hk.
  - rewrite filter_cons_True by exact Hk. constructor; [|exact IH].
    unfold Pathlib.keep_part in Hk. destruct c; [discriminate|reflexivity].
  - rewrite filter_cons_False by (rewrite Hk; discriminate). exact IH.
Qed.

Lemma wf_truediv p q : wf_path p -> wf_path q -> wf_path (p // q).
Proof.
  unfold wf_path, Pathlib.truediv. intros Hp Hq.
  destruct (Pathlib.is_absolute q); [exact Hq|].
  cbn [Pathlib.parts]. apply Forall_app. split; assumption.
Qed.

Lemma wf_subpath os : wf_path (interpreter_subpath os).
Proof.
  unfold wf_path, interpreter_subpath.
  destruct (win32 os); repeat constructor.
Qed.

Create HintDb wf.
#[local] Hint Resolve wf_parse wf_truediv wf_subpath : wf.

Lemma existing_truthy os p :
  wf_path p -> Config.if_truthy (existing os p) = existing os p.
Proof.
  intros Hwf. unfold existing, Config.if_truthy.
  destruct (path_exists os p); [|reflexivity].
  cbn [PyStr.opt_truthy]. rewrite (str_truthy p Hwf). reflexivity.
Qed.

Lemma declared_truthy os root d :
  wf_path root ->
  Config.if_truthy (declared_interpreter os root d)
  = declared_interpreter os root d.
Proof.
  intros Hwf. unfold declared_interpreter. cbn [first_some].
  destruct (string_entry "pythonPath" d) as [s|].
  - destruct (existing os (root // Pathlib.parse s)) eqn:He.
    + rewrite <- He. apply existing_truthy; auto with wf.
    + destruct (string_entry "venvPath" d) as [r|]; [|reflexivity].
      destruct (string_entry "venv" d) as [n|]; [|reflexivity].
      destruct (PyStr.truthy r && PyStr.truthy n)%bool; [|reflexivity].
      match goal with
      | |- context [existing os ?q] =>
          destruct (existing os q) eqn:Hq; [|reflexivity];
          rewrite <- Hq; apply existing_truthy; auto with wf
      end.
  - destruct (string_entry "venvPath" d) as [r|]; [|reflexivity].
    destruct (string_entry "venv" d) as [n|]; [|reflexivity].
    destruct (PyStr.truthy r && PyStr.truthy n)%bool; [|reflexivity].
    match goal with
    | |- context [existing os ?q] =>
        destruct (existing os q) eqn:Hq; [|reflexivity];
        rewrite <- Hq; apply existing_truthy; auto with wf
    end.
Qed.

(** Configuration files of the expected shape: [find_pyright_python_path]
    raises nothing and returns the first declaration that exists. *)
Lemma find_pyright_declared os ws :
  json_ok os (Pathlib.parse ws) = true ->
  toml_ok os (Pathlib.parse ws) = true ->
  Config.find_pyright_python_path os ws
  = Py.Ok (first_some (map (declared_interpreter os (Pathlib.parse ws))
                           (config_tables os (Pathlib.parse ws)))).
Proof.
  unfold json_ok, toml_ok, Config.find_pyright_python_path, config_tables,
    json_load, toml_load.
  set (root := Pathlib.parse ws).
  set (fj := root // Pathlib.parse "pyrightconfig.json").
  set (ft := root // Pathlib.parse "pyproject.toml").
  assert (Hwf : wf_path root) by apply wf_parse.
  intros Hj Ht.
  assert (Htoml :
    (if path_exists os ft then
       Py.try_except Config.handled_toml
         (let! config := match fs_load os (Pathlib.str ft) with
                         | Unreadable => Py.Raise Py.OSError
                         | Malformed => Py.Raise Py.TOMLDecodeError
                         | Parsed v => Py.Ok v
                         | Undecodable => Py.Raise Py.UnicodeDecodeError
                         | TooDeep => Py.Raise Py.RecursionError
                         end in
          let! tool := Py.get config "tool" (Py.VDict []) in
          let! pyright_config := Py.get tool "pyright" (Py.VDict []) in
          let! python_path :=
            Config._extract_python_path_from_pyright os pyright_config root in
          Py.Ok (Config.if_truthy python_path))
         None
     else Py.Ok None)
    = Py.Ok (first_some
               (map (declared_interpreter os root)
                    (if path_exists os ft then
                       match fs_load os (Pathlib.str ft) with
                       | Parsed (Py.VDict top) =>
                           [subtable "pyright" (subtable "tool" top)]
                       | _ => []
                       end
                     else [])))).
  { destruct (path_exists os ft); [|reflexivity].
    destruct (fs_load os (Pathlib.str ft)) as [| |[| | | | |top]| |];
      try discriminate; try reflexivity.
    apply andb_true_iff in Ht as [Ht Htab].
    apply andb_true_iff in Ht as [Htool Hpy].
    unfold subtable_ok in Htool, Hpy. unfold subtable in *.
    cbn [Py.bind Py.get].
    destruct (Py.assoc "tool" top) as [[| | | | |tool]|]; try discriminate;
      cbn [Py.bind Py.get];
      destruct (Py.assoc "pyright" _) as [[| | | | |py]|]; try discriminate;
      rewrite (extract_declared os _ root Htab);
      cbn [Py.bind Py.try_except map first_some];
      rewrite (declared_truthy os root _ Hwf);
      destruct (declared_interpreter os root _); reflexivity. }
  destruct (path_exists os fj).
  - destruct (fs_load os (Pathlib.str fj)) as [| |[| | | | |d]| |];
      try discriminate; cbn [Py.bind Py.try_except Config.handled_json app];
      try exact Htoml.
    rewrite (extract_declared os d root Hj).
    cbn [Py.bind Py.try_except map first_some].
    rewrite (declared_truthy os root d Hwf).
    destruct (declared_interpreter os root d); [reflexivity|exact Htoml].
  - cbn [Py.bind app]. exact Htoml.
Qed.

(** The conventional environments are probed in the order of [venv_dirs]. *)
Lemma find_venv_loop_first os root dirs :
  Config.find_venv_loop os root dirs
  = first_some (map (fun d => existing os (root // Pathlib.parse d
                                           // interpreter_subpath os)) dirs).
Proof.
  induction dirs as [|d dirs IH]; [reflexivity|].
  cbn [Config.find_venv_loop map first_some].
  unfold Config.venv_python_exe. rewrite truediv_subpath, IH.
  unfold existing. destruct (path_exists os _); reflexivity.
Qed.

Lemma first_some_truthy (f : string -> option string) dirs :
  (forall d, Config.if_truthy (f d) = f d) ->
  Config.if_truthy (first_some (map f dirs)) = first_some (map f dirs).
Proof.
  intros Hf. induction dirs as [|d dirs IH]; [reflexivity|].
  cbn [map first_some]. destruct (f d) eqn:Hd; [|exact IH].
  rewrite <- Hd. apply Hf.
Qed.

Lemma first_some_app {A} (l1 l2 : list (option A)) :
  first_some (l1 ++ l2)
  = match first_some l1 with Some a => Some a | None => first_some l2 end.
Proof.
  induction l1 as [|[a|] l1 IH]; [reflexivity|reflexivity|exact IH].
Qed.

(** The code against the five steps, for configurations of the expected
    shape. *)
Lemma get_python_path_locate g os workspace :
  configs_ok os workspace = true ->
  Config._global_python_path g <> Some "" ->
  Config.get_python_path_for_workspace g os workspace
  = Py.Ok (locate g os workspace).
Proof.
  unfold configs_ok, Config.get_python_path_for_workspace, locate.
  set (w := Posixpath.abspath (getcwd os) workspace).
  intros Hok Hglobal. apply andb_true_iff in Hok as [Hj Ht].
  cbn [app first_some].
  destruct (Config._python_paths g !! w) as [p|]; [reflexivity|].
  destruct (Config._global_python_path g) as [[|a s]|];
    [congruence|reflexivity|].
  cbn [Config.if_truthy PyStr.opt_truthy].
  rewrite (find_pyright_declared os w Hj Ht). cbn [Py.bind].
  rewrite first_some_app.
  assert (Htr : Config.if_truthy
                  (first_some (map (declared_interpreter os (Pathlib.parse w))
                                   (config_tables os (Pathlib.parse w))))
                = first_some (map (declared_interpreter os (Pathlib.parse w))
                                  (config_tables os (Pathlib.parse w)))).
  { induction (config_tables os (Pathlib.parse w)) as [|d l IH]; [reflexivity|].
    cbn [map first_some].
    destruct (declared_interpreter os (Pathlib.parse w) d) eqn:Hd; [|exact IH].
    rewrite <- Hd. apply declared_truthy, wf_parse. }
  rewrite Htr.
  destruct (first_some (map (declared_interpreter os (Pathlib.parse w)) _));
    [reflexivity|].
  unfold Config.find_venv_python_path. rewrite find_venv_loop_first.
  rewrite first_some_truthy
    by (intros d; apply existing_truthy; auto with wf).
  destruct (first_some _); reflexivity.
Qed.

(** The setter never stores an empty global override: [os.access] fails on
    the empty path. *)
Lemma set_python_path_global_nonempty g os python_path workspace :
  fs_access_x os "" = false ->
  Config._global_python_path g <> Some "" ->
  Config._global_python_path
    (snd (Config.set_python_path g os python_path workspace)) <> Some "".
Proof.
  intros Hacc Hg. unfold Config.set_python_path.
  destruct (path_exists os (Pathlib.parse python_path)); [|exact Hg].
  destruct (fs_access_x os python_path) eqn:Ha; [|exact Hg].
  cbn [negb]. destruct (Config.if_truthy workspace); [exact Hg|].
  cbn [snd Config._global_python_path]. intros [= ->]. congruence.
Qed.

(** Configuration files that are missing, unreadable or malformed count as
    declaring nothing. *)
Lemma find_pyright_nothing_parsed os ws :
  (forall p, fs_load os p = Unreadable \/ fs_load os p = Malformed) ->
  Config.find_pyright_python_path os ws = Py.Ok None.
Proof.
  intros Hload.
  rewrite find_pyright_declared.
  - unfold config_tables.
    repeat match goal with
    | |- context [fs_load os ?p] =>
        destruct (Hload p) as [-> | ->]
    end;
    repeat match goal with
    | |- context [path_exists os ?p] => destruct (path_exists os p)
    end; reflexivity.
  - unfold json_ok. destruct (path_exists os _); [|reflexivity].
    match goal with
    | |- context [fs_load os ?p] => destruct (Hload p) as [-> | ->]
    end; reflexivity.
  - unfold toml_ok. destruct (path_exists os _); [|reflexivity].
    match goal with
    | |- context [fs_load os ?p] => destruct (Hload p) as [-> | ->]
    end; reflexivity.
Qed.

(** A configuration file whose bytes are not UTF-8 is not treated as
    missing: [UnicodeDecodeError] is none of the exceptions the probe
    catches. *)
Example find_pyright_undecodable_raises :
  Config.find_pyright_python_path
    (posix_os "/" ["/proj"; "/proj/pyrightconfig.json"] []
              (fun _ => Undecodable)) "/proj"
  = Py.Raise Py.UnicodeDecodeError.
Proof. vm_compute. reflexivity. Qed.

(** The overrides are looked at before any file is read. *)
Lemma get_python_path_override g os workspace p :
  Config._python_paths g !! Posixpath.abspath (getcwd os) workspace = Some p ->
  Config.get_python_path_for_workspace g os workspace = Py.Ok p.
Proof.
  intros H. unfold Config.get_python_path_for_workspace. rewrite H. reflexivity.
Qed.

Lemma get_python_path_global g os workspace p :
  Config._python_paths g !! Posixpath.abspath (getcwd os) workspace = None ->
  Config._global_python_path g = Some p -> p <> "" ->
  Config.get_python_path_for_workspace g os workspace = Py.Ok p.
Proof.
  intros Hw Hg Hp. unfold Config.get_python_path_for_workspace.
  rewrite Hw, Hg. destruct p; [congruence|reflexivity].
Qed.

(** Where the configuration files have the expected shape the interpreter
    of a workspace is the first that exists among the per-workspace
    override, the global override, what the configuration tables declare
    ([pyrightconfig.json] before [pyproject.toml]; the direct path before
    the named environment) and the conventional environments [.venv],
    [venv], [env]; failing all, the running interpreter.  The two overrides
    win whatever the configuration files hold.  In [/proj], with the
    configuration naming root [.] and environment [myenv], the result is
    [/proj/myenv/bin/python] although no conventional environment
    exists. *)
Lemma interpreter_precedence_expected_shape :
  (forall g os workspace,
     configs_ok os workspace = true ->
     Config._global_python_path g <> Some "" ->
     Config.get_python_path_for_workspace g os workspace
     = Py.Ok (locate g os workspace)) /\
  (forall g os workspace p,
     Config._python_paths g !! Posixpath.abspath (getcwd os) workspace = Some p ->
     Config.get_python_path_for_workspace g os workspace = Py.Ok p) /\
  (forall g os workspace p,
     Config._python_paths g !! Posixpath.abspath (getcwd os) workspace = None ->
     Config._global_python_path g = Some p -> p <> "" ->
     Config.get_python_path_for_workspace g os workspace = Py.Ok p) /\
  (Config.find_venv_python_path os_proj "/proj" = None /\
   Config.get_python_path_for_workspace globals_empty os_proj "/proj"
   = Py.Ok "/proj/myenv/bin/python").
Proof.
  split; [exact get_python_path_locate|].
  split; [exact get_python_path_override|].
  split; [exact get_python_path_global|].
  vm_compute. split; reflexivity.
Qed.

Example interpreter_precedence_proj :
  configs_ok os_proj "/proj" = true /\
  Config._global_python_path globals_empty <> Some "" /\
  Config.get_python_path_for_workspace globals_empty os_proj "/proj"
  = Py.Ok (locate globals_empty os_proj "/proj").
Proof.
  assert (Hok : configs_ok os_proj "/proj" = true) by (vm_compute; reflexivity).
  assert (Hg : Config._global_python_path globals_empty <> Some "")
    by (simpl; discriminate).
  split; [exact Hok|]. split; [exact Hg|].
  exact (proj1 interpreter_precedence_expected_shape
            globals_empty os_proj "/proj" Hok Hg).
Defined.

(** C4 (the code at the failing input): in [/proj], whose
    [pyrightconfig.json] is the array [[]] and whose [.venv] holds an
    interpreter, no override is stored and the configuration declares
    nothing, so the first match of the five steps is
    [/proj/.venv/bin/python]; the code raises [AttributeError] at step 3
    and reaches neither step 4 nor step 5. *)
Theorem C4_unexpected_shape_breaks_precedence :
  locate globals_empty os_array_config_venv "/proj" = "/proj/.venv/bin/python" /\
  Config.find_venv_python_path os_array_config_venv "/proj"
  = Some "/proj/.venv/bin/python" /\
  Config.get_python_path_for_workspace globals_empty os_array_config_venv "/proj"
  = Py.Raise Py.AttributeError.
Proof. vm_compute. repeat split. Qed.

(** C5 (the code at the failing inputs): a [pyrightconfig.json] that is
    well-formed JSON but not an object of strings makes the configuration
    probe raise; the exception is none of those the probe catches and it
    leaves [get_python_path_for_workspace] as well. *)
Theorem C5_unexpected_shape_raises :
  Config.find_pyright_python_path os_array_config "/proj"
  = Py.Raise Py.AttributeError /\
  Config.get_python_path_for_workspace globals_empty os_array_config "/proj"
  = Py.Raise Py.AttributeError /\
  Config.find_pyright_python_path os_number_config "/proj"
  = Py.Raise Py.TypeError /\
  Config.get_python_path_for_workspace globals_empty os_number_config "/proj"
  = Py.Raise Py.TypeError.
Proof. vm_compute. repeat split. Qed.

(** ** Applying text edits *)

Module EditFacts.
Import Server.

Lemma key_lt_spec a b :
  key_lt a b = true <->
  (fst a < fst b \/ (fst a = fst b /\ snd a < snd b))%nat.
Proof.
  unfold key_lt.
  rewrite orb_true_iff, andb_true_iff, !Nat.ltb_lt, Nat.eqb_eq. reflexivity.
Qed.

Lemma key_lt_false a b :
  key_lt a b = false <->
  (fst b < fst a \/ (fst a = fst b /\ snd b <= snd a))%nat.
Proof.
  rewrite <- not_true_iff_false, key_lt_spec. lia.
Qed.

Lemma key_eq (a b : nat * nat) : fst a = fst b -> snd a = snd b -> a = b.
Proof. destruct a, b; simpl; congruence. Qed.

(** Inserting two edits with different keys gives the same list in either
    order. *)
Lemma insert_desc_comm a b l :
  sort_key a <> sort_key b ->
  insert_desc a (insert_desc b l) = insert_desc b (insert_desc a l).
Proof.
  intros Hne.
  assert (Hneq : ~ (fst (sort_key a) = fst (sort_key b) /\
                    snd (sort_key a) = snd (sort_key b)))
    by (intros [H1 H2]; apply Hne, key_eq; assumption).
  induction l as [|y l IH]; cbn [insert_desc].
  - destruct (key_lt (sort_key a) (sort_key b)) eqn:Hab;
      destruct (key_lt (sort_key b) (sort_key a)) eqn:Hba; try reflexivity.
    + apply key_lt_spec in Hab, Hba. lia.
    + apply key_lt_false in Hab, Hba. lia.
  - destruct (key_lt (sort_key a) (sort_key y)) eqn:Hay;
      destruct (key_lt (sort_key b) (sort_key y)) eqn:Hby;
      cbn [insert_desc]; rewrite ?Hay, ?Hby.
    + rewrite IH. reflexivity.
    + assert (Hab : key_lt (sort_key a) (sort_key b) = true)
        by (apply key_lt_spec; apply key_lt_spec in Hay;
            apply key_lt_false in Hby; lia).
      rewrite ?Hab; cbn [insert_desc]; rewrite ?Hay, ?Hab; reflexivity.
    + assert (Hba : key_lt (sort_key b) (sort_key a) = true)
        by (apply key_lt_spec; apply key_lt_spec in Hby;
            apply key_lt_false in Hay; lia).
      rewrite ?Hba; cbn [insert_desc]; rewrite ?Hby, ?Hba; reflexivity.
    + destruct (key_lt (sort_key a) (sort_key b)) eqn:Hab;
        destruct (key_lt (sort_key b) (sort_key a)) eqn:Hba;
        cbn [insert_desc]; rewrite ?Hay, ?Hby; try reflexivity.
      * apply key_lt_spec in Hab, Hba. lia.
      * apply key_lt_false in Hab, Hba. lia.
Qed.

Lemma insert_desc_perm e l : Permutation (insert_desc e l) (e :: l).
Proof.
  induction l as [|y l IH]; cbn [insert_desc]; [reflexivity|].
  destruct (key_lt (sort_key e) (sort_key y)); [|reflexivity].
  rewrite IH. apply perm_swap.
Qed.

(** [sort_desc] rearranges its input. *)
Lemma sort_desc_perm l : Permutation (sort_desc l) l.
Proof.
  induction l as [|e l IH]; [reflexivity|].
  cbn [sort_desc foldr]. fold (sort_desc l).
  rewrite insert_desc_perm, IH. reflexivity.
Qed.

Lemma insert_desc_sorted e l :
  StronglySorted (fun x y => key_lt (sort_key x) (sort_key y) = false) l ->
  StronglySorted (fun x y => key_lt (sort_key x) (sort_key y) = false)
                 (insert_desc e l).
Proof.
  induction 1 as [|y l Hs IH Hall]; cbn [insert_desc].
  - repeat constructor.
  - destruct (key_lt (sort_key e) (sort_key y)) eqn:Hey.
    + constructor; [exact IH|].
      rewrite (insert_desc_perm e l).
      constructor; [|exact Hall].
      apply key_lt_false. apply key_lt_spec in Hey. lia.
    + constructor; [constructor; assumption|].
      constructor; [exact Hey|].
      eapply Forall_impl; [exact Hall|]. intros z Hz. cbn beta in *.
      apply key_lt_false. apply key_lt_false in Hey, Hz. lia.
Qed.

(** [sort_desc] puts its input in descending order of the keys. *)
Lemma sort_desc_sorted l :
  StronglySorted (fun x y => key_lt (sort_key x) (sort_key y) = false)
                 (sort_desc l).
Proof.
  induction l as [|e l IH]; [constructor|].
  cbn [sort_desc foldr]. apply insert_desc_sorted, IH.
Qed.

(** With pairwise different keys the sorted list does not depend on the
    order of the input. *)
Lemma sort_desc_order_independent l1 l2 :
  Permutation l1 l2 -> NoDup (map sort_key l1) -> sort_desc l1 = sort_desc l2.
Proof.
  induction 1 as [|x l1 l2 Hp IH|x y l|l1 l2 l3 Hp12 IH12 Hp23 IH23];
    intros Hnd.
  - reflexivity.
  - cbn [sort_desc foldr]. fold (sort_desc l1) (sort_desc l2).
    cbn [map] in Hnd. apply NoDup_cons in Hnd as [_ Hnd].
    rewrite (IH Hnd). reflexivity.
  - cbn [sort_desc foldr]. fold (sort_desc l).
    cbn [map] in Hnd. apply NoDup_cons in Hnd as [Hnotin _].
    apply insert_desc_comm. intros Heq. apply Hnotin.
    rewrite Heq. left.
  - rewrite (IH12 Hnd). apply IH23.
    rewrite <- Hp12. exact Hnd.
Qed.

End EditFacts.

(** C3 (as stated, refuted): two insertions at the same position, or an
    insertion in front of a replacement, do not overlap, and the result of
    applying them depends on the order in which they are given: the sort is
    stable. *)
Lemma C3_same_start_depends_on_order :
  (non_overlapping [insert_X; insert_Y] = true /\
   Permutation [insert_X; insert_Y] [insert_Y; insert_X] /\
   Server.apply_text_edits RopeClient.position_to_offset "ab"
     [insert_X; insert_Y] = "YXab" /\
   Server.apply_text_edits RopeClient.position_to_offset "ab"
     [insert_Y; insert_X] = "XYab") /\
  (non_overlapping [insert_X; replace_first] = true /\
   Permutation [insert_X; replace_first] [replace_first; insert_X] /\
   Server.apply_text_edits RopeClient.position_to_offset "ab"
     [insert_X; replace_first] = "Yab" /\
   Server.apply_text_edits RopeClient.position_to_offset "ab"
     [replace_first; insert_X] = "XYb") /\
  ~ (forall content es1 es2,
       non_overlapping es1 = true -> Permutation es1 es2 ->
       Server.apply_text_edits RopeClient.position_to_offset content es1
       = Server.apply_text_edits RopeClient.position_to_offset content es2).
Proof.
  split; [|split].
  - split; [reflexivity|]. split; [apply perm_swap|].
    split; vm_compute; reflexivity.
  - split; [reflexivity|]. split; [apply perm_swap|].
    split; vm_compute; reflexivity.
  - intros H.
    specialize (H "ab" [insert_X; insert_Y] [insert_Y; insert_X]
                  eq_refl (perm_swap _ _ _)).
    vm_compute in H. discriminate H.
Qed.

(** C3 (amended): for every content and every list of edits whose start
    positions are pairwise different (whatever [position_to_offset]
    computes), sorting by descending start position and substituting in
    that order gives a result that does not depend on the order of the
    input; the two edits of ["line1\nline2\n"] give ["LINE1\nLINE2\n"] in
    either order. *)
Theorem C3_apply_text_edits_order_independent :
  (forall position_to_offset content es1 es2,
     Permutation es1 es2 ->
     NoDup (map Server.sort_key es1) ->
     Server.apply_text_edits position_to_offset content es1
     = Server.apply_text_edits position_to_offset content es2) /\
  Server.apply_text_edits RopeClient.position_to_offset two_lines
    [edit_line0; edit_line1] = TWO_LINES /\
  Server.apply_text_edits RopeClient.position_to_offset two_lines
    [edit_line1; edit_line0] = TWO_LINES.
Proof.
  split; [|split].
  - intros offset content es1 es2 Hperm Hnd. unfold Server.apply_text_edits.
    rewrite (EditFacts.sort_desc_order_independent es1 es2 Hperm Hnd).
    reflexivity.
  - vm_compute. reflexivity.
  - vm_compute. reflexivity.
Qed.

Lemma C3_apply_text_edits_order_independent_witness :
  Permutation [edit_line0; edit_line1] [edit_line1; edit_line0] /\
  NoDup (map Server.sort_key [edit_line0; edit_line1]) /\
  Server.apply_text_edits RopeClient.position_to_offset two_lines
    [edit_line0; edit_line1]
  = Server.apply_text_edits RopeClient.position_to_offset two_lines
      [edit_line1; edit_line0].
Proof.
  assert (Hp : Permutation [edit_line0; edit_line1] [edit_line1; edit_line0])
    by apply perm_swap.
  assert (Hnd : NoDup (map Server.sort_key [edit_line0; edit_line1])).
  { cbn. apply NoDup_cons. split.
    - rewrite list_elem_of_singleton. discriminate.
    - apply NoDup_singleton. }
  split; [exact Hp|]. split; [exact Hnd|].
  exact (proj1 C3_apply_text_edits_order_independent
           RopeClient.position_to_offset two_lines _ _ Hp Hnd).
Defined.

(** * Further properties *)

(** ** Configuration from the environment *)

Module EnvFacts.
Import Config ConfigEnv.

Lemma lower_truthy s : PyStr.truthy (PyStr.lower s) = PyStr.truthy s.
Proof. destruct s; reflexivity. Qed.

Lemma ascii_lower_idem c :
  PyStr.ascii_lower (PyStr.ascii_lower c) = PyStr.ascii_lower c.
Proof.
  destruct c as [[] [] [] [] [] [] [] []]; vm_compute; reflexivity.
Qed.

Lemma lower_idem s : PyStr.lower (PyStr.lower s) = PyStr.lower s.
Proof.
  induction s as [|c s IH]; [reflexivity|].
  cbn [PyStr.lower]. rewrite ascii_lower_idem, IH. reflexivity.
Qed.

Lemma in_backend_names_value v :
  in_backend_names (Some v) = true ->
  Backend_of_value v = Some (Backend_of v).
Proof.
  unfold in_backend_names, Backend_of, Backend_of_value.
  destruct (String.eqb v "rope"); [reflexivity|].
  destruct (String.eqb v "pyright"); [reflexivity|discriminate].
Qed.

Lemma not_in_backend_names_value v :
  in_backend_names (Some v) = false -> Backend_of_value v = None.
Proof.
  unfold in_backend_names, Backend_of_value.
  destruct (String.eqb v "rope"); [discriminate|].
  destruct (String.eqb v "pyright"); [discriminate|reflexivity].
Qed.

(** What one turn of the loop over the tools leaves in the map. *)
Lemma from_env_fold_lookup environ (tools : list string) tool :
  foldr (from_env_step environ) ∅ tools !! tool
  = if decide (tool ∈ tools)
    then get_env environ (upper tool +:+ "_BACKEND") ≫= Backend_of_value
    else None.
Proof.
  induction tools as [|x tools IH]; cbn [foldr].
  - rewrite lookup_empty. case_decide as H; [|reflexivity].
    apply not_elem_of_nil in H. contradiction.
  - unfold from_env_step at 1.
    destruct (decide (tool = x)) as [->|Hne].
    + rewrite (decide_True (P := x ∈ x :: tools)) by left.
      destruct (get_env environ (upper x +:+ "_BACKEND")) as [v|] eqn:Hv.
      * change (Some v ≫= Backend_of_value) with (Backend_of_value v) in *.
        destruct (in_backend_names (Some v)) eqn:Hin; cbn [default].
        -- rewrite lookup_insert_eq.
           symmetry. apply in_backend_names_value, Hin.
        -- rewrite IH, (not_in_backend_names_value v Hin).
           case_decide; reflexivity.
      * change (None ≫= Backend_of_value) with (@None Backend) in *.
        cbn [in_backend_names]. rewrite IH. case_decide; reflexivity.
    + assert (Hiff : tool ∈ x :: tools <-> tool ∈ tools)
        by (rewrite elem_of_cons; tauto).
      destruct (in_backend_names _);
        rewrite ?lookup_insert_ne by congruence; rewrite IH;
        repeat case_decide; tauto || reflexivity.
Qed.

Lemma from_env_lookup environ tool :
  tool_backends (from_env environ) !! tool
  = if decide (tool ∈ SHARED_TOOLS)
    then get_env environ (upper tool +:+ "_BACKEND") ≫= Backend_of_value
    else None.
Proof.
  unfold from_env. cbn [tool_backends].
  unfold set_fold. cbn [compose].
  rewrite from_env_fold_lookup.
  repeat case_decide; try reflexivity;
    exfalso; rewrite elem_of_elements in *; contradiction.
Qed.

Lemma from_env_default environ :
  default_backend (from_env environ)
  = default ROPE (get_env environ "BACKEND" ≫= Backend_of_value).
Proof.
  unfold from_env. cbn [default_backend].
  destruct (get_env environ "BACKEND") as [v|];
    [change (Some v ≫= Backend_of_value) with (Backend_of_value v)
    |reflexivity].
  destruct (PyStr.truthy v) eqn:Hv.
  - destruct (in_backend_names (Some v)) eqn:Hin.
    + rewrite (in_backend_names_value v Hin). reflexivity.
    + rewrite (not_in_backend_names_value v Hin). reflexivity.
  - destruct v; [reflexivity|discriminate].
Qed.

(** The capital [E] with acute accent (code point 201) is lowered to code
    point 233; the multiplication sign (215) is no letter. *)
Example lower_accented_capital :
  PyStr.lower (String (ascii_of_nat 201) "COLE")
  = String (ascii_of_nat 233) "cole" /\
  PyStr.lower (String (ascii_of_nat 215) "") = String (ascii_of_nat 215) "".
Proof. split; reflexivity. Qed.

End EnvFacts.

(** X1: the configuration read from the environment stores a per-tool
    override exactly for the shared tools whose variable
    [<TOOL>_BACKEND] names a known backend, and its default is the backend
    named by [BACKEND], rope when that is unset or names no backend. *)
Theorem X1_from_env_reads_known_backends environ tool :
  Config.tool_backends (ConfigEnv.from_env environ) !! tool
  = (if decide (tool ∈ Config.SHARED_TOOLS)
     then ConfigEnv.get_env environ (ConfigEnv.upper tool +:+ "_BACKEND")
          ≫= Config.Backend_of_value
     else None) /\
  Config.default_backend (ConfigEnv.from_env environ)
  = default Config.ROPE
      (ConfigEnv.get_env environ "BACKEND" ≫= Config.Backend_of_value).
Proof.
  split; [apply EnvFacts.from_env_lookup|].
  unfold ConfigEnv.from_env. cbn [Config.default_backend].
  destruct (ConfigEnv.get_env environ "BACKEND") as [v|];
    [change (Some v ≫= Config.Backend_of_value)
       with (Config.Backend_of_value v)|reflexivity].
  destruct (PyStr.truthy v) eqn:Hv.
  - destruct (ConfigEnv.in_backend_names (Some v)) eqn:Hin.
    + rewrite (EnvFacts.in_backend_names_value v Hin). reflexivity.
    + rewrite (EnvFacts.not_in_backend_names_value v Hin). reflexivity.
  - destruct v; [reflexivity|discriminate].
Qed.

Example from_env_sample :
  Config.default_backend (ConfigEnv.from_env environ_sample) = Config.PYRIGHT /\
  Config.tool_backends (ConfigEnv.from_env environ_sample) !! "hover"
  = Some Config.ROPE /\
  Config.tool_backends (ConfigEnv.from_env environ_sample) !! "symbols" = None.
Proof. vm_compute. repeat split. Qed.

(** X2: a value [get_env] returns is never empty and is in lower case; the
    variable with the prefix [PYTHON_LSP_MCP_] wins whenever it is set to a
    non-empty value; when it is unset or empty, [get_env] falls through to
    the variable with the prefix [ROPE_MCP_] and returns its value in lower
    case if that one is set to a non-empty value; and [get_env] returns
    nothing exactly when both variables are unset or empty. *)
Theorem X2_get_env_prefixes environ suffix :
  (forall v, ConfigEnv.get_env environ suffix = Some v ->
     PyStr.truthy v = true /\ PyStr.lower v = v) /\
  (forall v, environ !! ("PYTHON_LSP_MCP_" +:+ suffix) = Some v ->
     PyStr.truthy v = true ->
     ConfigEnv.get_env environ suffix = Some (PyStr.lower v)) /\
  (forall v,
     PyStr.truthy (default "" (environ !! ("PYTHON_LSP_MCP_" +:+ suffix)))
     = false ->
     environ !! ("ROPE_MCP_" +:+ suffix) = Some v ->
     PyStr.truthy v = true ->
     ConfigEnv.get_env environ suffix = Some (PyStr.lower v)) /\
  (ConfigEnv.get_env environ suffix = None <->
   PyStr.truthy (default "" (environ !! ("PYTHON_LSP_MCP_" +:+ suffix))) = false /\
   PyStr.truthy (default "" (environ !! ("ROPE_MCP_" +:+ suffix))) = false).
Proof.
  unfold ConfigEnv.get_env, ConfigEnv.ENV_PREFIXES.
  cbn [ConfigEnv.get_env_loop].
  rewrite !EnvFacts.lower_truthy.
  split; [|split; [|split]].
  - intros v.
    destruct (PyStr.truthy (default "" (environ !! ("PYTHON_LSP_MCP_" +:+ suffix))))
      eqn:H1;
      [|destruct (PyStr.truthy (default "" (environ !! ("ROPE_MCP_" +:+ suffix))))
          eqn:H2; [|discriminate]];
      intros [= <-]; rewrite EnvFacts.lower_truthy, EnvFacts.lower_idem; auto.
  - intros v -> Hv. simpl. rewrite Hv. reflexivity.
  - intros v -> -> Hv. simpl. rewrite Hv. reflexivity.
  - destruct (PyStr.truthy (default "" (environ !! ("PYTHON_LSP_MCP_" +:+ suffix))));
      destruct (PyStr.truthy (default "" (environ !! ("ROPE_MCP_" +:+ suffix))));
      split; try discriminate; try tauto; intros [? ?]; discriminate.
Qed.

Lemma X2_get_env_prefixes_witness :
  (environ_sample !! ("PYTHON_LSP_MCP_" +:+ "HOVER_BACKEND") = Some "ROPE" /\
   PyStr.truthy "ROPE" = true /\
   ConfigEnv.get_env environ_sample "HOVER_BACKEND" = Some "rope") /\
  (PyStr.truthy
     (default "" (environ_sample !! ("PYTHON_LSP_MCP_" +:+ "BACKEND"))) = false /\
   environ_sample !! ("ROPE_MCP_" +:+ "BACKEND") = Some "PyRight" /\
   PyStr.truthy "PyRight" = true /\
   ConfigEnv.get_env environ_sample "BACKEND" = Some "pyright").
Proof.
  assert (H : environ_sample !! ("PYTHON_LSP_MCP_" +:+ "HOVER_BACKEND")
              = Some "ROPE") by (vm_compute; reflexivity).
  assert (H1 : PyStr.truthy
                 (default "" (environ_sample !! ("PYTHON_LSP_MCP_" +:+ "BACKEND")))
               = false) by (vm_compute; reflexivity).
  assert (H2 : environ_sample !! ("ROPE_MCP_" +:+ "BACKEND") = Some "PyRight")
    by (vm_compute; reflexivity).
  split.
  - split; [exact H|]. split; [reflexivity|].
    exact (proj1 (proj2 (X2_get_env_prefixes environ_sample "HOVER_BACKEND"))
             "ROPE" H eq_refl).
  - split; [exact H1|]. split; [exact H2|]. split; [reflexivity|].
    exact (proj1 (proj2 (proj2 (X2_get_env_prefixes environ_sample "BACKEND")))
             "PyRight" H1 H2 eq_refl).
Defined.

Lemma shared_tool_truthy tool :
  tool ∈ Config.SHARED_TOOLS -> PyStr.truthy tool = true.
Proof.
  unfold Config.SHARED_TOOLS. rewrite !elem_of_union, !elem_of_singleton.
  intros H. repeat (destruct H as [H|H]); subst; reflexivity.
Qed.

Lemma overrides_shared_set_backend cfg b t :
  overrides_shared cfg -> overrides_shared (Config.set_backend cfg b t).
Proof.
  unfold overrides_shared, Config.set_backend. intros H.
  destruct t as [t|]; [|exact H].
  case_decide as Ht; [|exact H].
  cbn [Config.tool_backends]. rewrite dom_insert_L.
  apply union_subseteq. split; [|exact H].
  apply singleton_subseteq_l. exact Ht.
Qed.

(** X3: per-tool overrides exist only for shared tools: this holds of the
    configuration read from the environment and is kept by
    [ServerConfig.set_backend], [set_all_backends] and the [set_backend]
    tool, whatever their arguments. *)
Theorem X3_overrides_only_for_shared_tools :
  (forall environ, overrides_shared (ConfigEnv.from_env environ)) /\
  (forall cfg, overrides_shared cfg ->
     (forall b t, overrides_shared (Config.set_backend cfg b t)) /\
     (forall b, overrides_shared (Config.set_all_backends cfg b)) /\
     (forall s t, overrides_shared (snd (Server.set_backend cfg s t)))).
Proof.
  split.
  - intros environ t Ht. apply elem_of_dom in Ht as [b Hb].
    rewrite EnvFacts.from_env_lookup in Hb.
    case_decide; [assumption|discriminate].
  - intros cfg H. split; [|split].
    + intros b t. apply overrides_shared_set_backend, H.
    + intros b. unfold overrides_shared, Config.set_all_backends.
      cbn [Config.tool_backends]. set_solver.
    + intros s t. unfold Server.set_backend.
      destruct (Config.Backend_of_value (PyStr.lower s)) as [b|]; [|exact H].
      destruct t as [t|].
      * destruct (PyStr.truthy t).
        -- case_decide; [|exact H]. apply overrides_shared_set_backend, H.
        -- unfold overrides_shared. cbn. set_solver.
      * unfold overrides_shared. cbn. set_solver.
Qed.

Lemma X3_overrides_only_for_shared_tools_witness :
  overrides_shared (ConfigEnv.from_env environ_sample) /\
  overrides_shared
    (snd (Server.set_backend (ConfigEnv.from_env environ_sample)
            "pyright" (Some "definition"))).
Proof.
  pose proof (proj1 X3_overrides_only_for_shared_tools environ_sample) as H.
  split; [exact H|].
  apply (proj2 X3_overrides_only_for_shared_tools _ H).
Defined.

(** ** The [set_backend] tool *)

(** X5: the [set_backend] tool called with a backend name (in any case) and
    a shared tool reports the tool and the name, makes that backend the
    effective backend of the tool, and leaves the default and the effective
    backend of every other tool as they were. *)
Theorem X5_set_backend_tool_sets_one_tool cfg s b tool :
  Config.Backend_of_value (PyStr.lower s) = Some b ->
  tool ∈ Config.SHARED_TOOLS ->
  fst (Server.set_backend cfg s (Some tool)) = Server.ToolBackendSet tool s /\
  Server._get_effective_backend
    (snd (Server.set_backend cfg s (Some tool))) tool None = b /\
  Config.default_backend (snd (Server.set_backend cfg s (Some tool)))
  = Config.default_backend cfg /\
  (forall other backend, other <> tool ->
     Server._get_effective_backend
       (snd (Server.set_backend cfg s (Some tool))) other backend
     = Server._get_effective_backend cfg other backend).
Proof.
  intros Hb Htool. unfold Server.set_backend. rewrite Hb.
  rewrite (shared_tool_truthy tool Htool).
  rewrite (decide_True (P := tool ∈ Config.SHARED_TOOLS)) by exact Htool.
  cbn [fst snd]. unfold Config.set_backend.
  rewrite (decide_True (P := tool ∈ Config.SHARED_TOOLS)) by exact Htool.
  split; [reflexivity|]. split; [|split; [reflexivity|]].
  - rewrite effective_backend_cases. cbn [explicit_backend].
    rewrite get_backend_for_unpinned by (apply shared_not_pinned, Htool).
    cbn [Config.tool_backends]. rewrite lookup_insert_eq. reflexivity.
  - intros other backend Hne. rewrite !effective_backend_cases.
    destruct (explicit_backend backend); [reflexivity|].
    unfold Config.get_backend_for. cbn [Config.tool_backends Config.default_backend].
    rewrite lookup_insert_ne by congruence. reflexivity.
Qed.

Lemma X5_set_backend_tool_sets_one_tool_witness :
  Config.Backend_of_value (PyStr.lower "PyRight") = Some Config.PYRIGHT /\
  "hover" ∈ Config.SHARED_TOOLS /\
  Server._get_effective_backend
    (snd (Server.set_backend (Config.mkServerConfig Config.ROPE ∅)
            "PyRight" (Some "hover"))) "hover" None = Config.PYRIGHT.
Proof.
  assert (Hb : Config.Backend_of_value (PyStr.lower "PyRight")
               = Some Config.PYRIGHT) by reflexivity.
  assert (Hin : "hover" ∈ Config.SHARED_TOOLS)
    by (unfold Config.SHARED_TOOLS; set_solver).
  split; [exact Hb|]. split; [exact Hin|].
  exact (proj1 (proj2 (X5_set_backend_tool_sets_one_tool
                         (Config.mkServerConfig Config.ROPE ∅)
                         "PyRight" Config.PYRIGHT "hover" Hb Hin))).
Defined.

(** X6: the [set_backend] tool rejects an unknown backend name and a tool
    that is not shared (also the exclusive tools) and then leaves the
    configuration as it was; [ServerConfig.set_backend] ignores a tool that
    is not shared without a word. *)
Theorem X6_set_backend_rejections cfg s tool :
  (Config.Backend_of_value (PyStr.lower s) = None ->
   Server.set_backend cfg s tool = (Server.InvalidBackend s, cfg)) /\
  (forall b t,
     Config.Backend_of_value (PyStr.lower s) = Some b ->
     PyStr.truthy t = true -> t ∉ Config.SHARED_TOOLS ->
     Server.set_backend cfg s (Some t) = (Server.InvalidTool t, cfg) /\
     Config.set_backend cfg b (Some t) = cfg).
Proof.
  split.
  - intros H. unfold Server.set_backend. rewrite H. reflexivity.
  - intros b t Hb Ht Hnot. unfold Server.set_backend, Config.set_backend.
    rewrite Hb, Ht.
    repeat case_decide; try contradiction. split; reflexivity.
Qed.

Lemma X6_set_backend_rejections_witness :
  Config.Backend_of_value (PyStr.lower "pyright") = Some Config.PYRIGHT /\
  PyStr.truthy "rename" = true /\ ("rename" ∉ Config.SHARED_TOOLS) /\
  Server.set_backend (Config.mkServerConfig Config.ROPE ∅) "pyright"
    (Some "rename")
  = (Server.InvalidTool "rename", Config.mkServerConfig Config.ROPE ∅).
Proof.
  assert (Hb : Config.Backend_of_value (PyStr.lower "pyright")
               = Some Config.PYRIGHT) by reflexivity.
  assert (Hnot : "rename" ∉ Config.SHARED_TOOLS)
    by (apply (bool_decide_unpack ("rename" ∉ Config.SHARED_TOOLS));
        vm_compute; exact I).
  split; [exact Hb|]. split; [reflexivity|]. split; [exact Hnot|].
  exact (proj1 (proj2 (X6_set_backend_rejections
                         (Config.mkServerConfig Config.ROPE ∅) "pyright" None)
                  Config.PYRIGHT "rename" Hb eq_refl Hnot)).
Defined.

(** The global configuration is read from the environment once: after
    a first [get_config] every later call returns the same configuration,
    whatever the environment has become, and [set_config] replaces what
    [get_config] returns. *)
Theorem get_config_reads_environment_once environ environ' _config config :
  ConfigEnv.get_config environ'
    (snd (ConfigEnv.get_config environ _config))
  = ConfigEnv.get_config environ _config /\
  (_config = None ->
   fst (ConfigEnv.get_config environ _config) = ConfigEnv.from_env environ) /\
  ConfigEnv.get_config environ (ConfigEnv.set_config config _config)
  = (config, Some config).
Proof.
  split; [|split].
  - destruct _config; reflexivity.
  - intros ->. reflexivity.
  - reflexivity.
Qed.

Lemma get_config_reads_environment_once_witness :
  fst (ConfigEnv.get_config environ_sample None)
  = ConfigEnv.from_env environ_sample /\
  ConfigEnv.get_config ∅ (snd (ConfigEnv.get_config environ_sample None))
  = ConfigEnv.get_config environ_sample None.
Proof.
  pose proof (get_config_reads_environment_once
                environ_sample ∅ None (Config.mkServerConfig Config.ROPE ∅))
    as [H1 [H2 _]].
  split; [exact (H2 eq_refl)|exact H1].
Defined.

(** ** Resolved paths *)

Module ResolveFacts.
Import Posixpath.

Lemma abspath_normal_abs cwd x : isabs cwd = true -> normal_abs (abspath cwd x).
Proof. intros H. exact (abspath_normal cwd x H). Qed.

Lemma abspath_fixed cwd p : normal_abs p -> abspath cwd p = p.
Proof. intros [Ha Hn]. rewrite (abspath_isabs cwd p Ha). exact Hn. Qed.

Lemma str_parse_fixed cwd p :
  normal_abs p -> abspath cwd (Pathlib.str (Pathlib.parse p)) = p.
Proof.
  intros [Ha Hn]. rewrite abspath_isabs.
  - rewrite PathFacts.normpath_str_parse by exact Ha. exact Hn.
  - rewrite PathFacts.str_parse_isabs by exact Ha.
    apply PathFacts.isabs_abs_form, PathFacts.initial_slashes_isabs, Ha.
Qed.

(** An absolute, normalized path is the path [resolve_file_path]
    normalizes from it. *)
Lemma candidate_path_fixed g os p :
  normal_abs p -> candidate_path g os p = p.
Proof.
  intros Hp. unfold candidate_path.
  rewrite PathFacts.is_absolute_parse, (proj1 Hp). cbn [negb].
  apply str_parse_fixed, Hp.
Qed.

(** What a success of [resolve_file_path] tells. *)
Lemma resolve_success g os f p :
  Config.resolve_file_path g os f = (Some p, None) ->
  p = candidate_path g os f /\
  (forall w, Config.if_truthy (Config._active_workspace g) = Some w ->
             startswith p w = true).
Proof.
  intros H.
  destruct (Config.if_truthy (Config._active_workspace g)) as [w|] eqn:Hw.
  - destruct (startswith (candidate_path g os f) w) eqn:Hin.
    + rewrite (resolve_inside_prefix g os f w Hw Hin) in H.
      injection H as <-. split; [reflexivity|].
      intros w' [= <-]. exact Hin.
    + rewrite (resolve_outside_prefix g os f w Hw Hin) in H. discriminate.
  - rewrite (resolve_no_workspace g os f Hw) in H.
    injection H as <-. split; [reflexivity|]. intros w' [=].
Qed.

Lemma candidate_path_normal g os f :
  isabs (getcwd os) = true -> normal_abs (candidate_path g os f).
Proof. intros H. unfold candidate_path. apply abspath_normal_abs, H. Qed.

End ResolveFacts.

(** X7: with an absolute current directory, every path
    [resolve_file_path] returns is absolute, is a fixed point of
    [normpath], and has the active workspace, when there is one, as a
    string prefix. *)
Theorem X7_resolved_path_is_normal g os file_path p :
  Posixpath.isabs (getcwd os) = true ->
  Config.resolve_file_path g os file_path = (Some p, None) ->
  Posixpath.isabs p = true /\
  Posixpath.normpath p = p /\
  (forall w, Config.if_truthy (Config.get_active_workspace g) = Some w ->
             Posixpath.startswith p w = true).
Proof.
  intros Hcwd Hres.
  destruct (ResolveFacts.resolve_success g os file_path p Hres) as [-> Hin].
  destruct (ResolveFacts.candidate_path_normal g os file_path Hcwd) as [Ha Hn].
  split; [exact Ha|]. split; [exact Hn|exact Hin].
Qed.

Lemma X7_resolved_path_is_normal_witness :
  Posixpath.isabs (getcwd os_home) = true /\
  Config.resolve_file_path globals_proj os_home "sub/../a.py"
  = (Some "/proj/a.py", None) /\
  Posixpath.normpath "/proj/a.py" = "/proj/a.py".
Proof.
  assert (Hres : Config.resolve_file_path globals_proj os_home "sub/../a.py"
                 = (Some "/proj/a.py", None)) by (vm_compute; reflexivity).
  split; [reflexivity|]. split; [exact Hres|].
  exact (proj1 (proj2 (X7_resolved_path_is_normal globals_proj os_home
                         "sub/../a.py" "/proj/a.py" eq_refl Hres))).
Defined.

(** X8: resolving a path that [resolve_file_path] returned gives the same
    path again: the tools can hand a resolved path on to another tool. *)
Theorem X8_resolve_file_path_idempotent g os file_path p :
  Posixpath.isabs (getcwd os) = true ->
  Config.resolve_file_path g os file_path = (Some p, None) ->
  Config.resolve_file_path g os p = (Some p, None).
Proof.
  intros Hcwd Hres.
  destruct (ResolveFacts.resolve_success g os file_path p Hres) as [Hp Hin].
  assert (Hnormal : normal_abs p)
    by (rewrite Hp; apply ResolveFacts.candidate_path_normal, Hcwd).
  pose proof (ResolveFacts.candidate_path_fixed g os p Hnormal) as Hfix.
  destruct (Config.if_truthy (Config._active_workspace g)) as [w|] eqn:Hw.
  - rewrite (resolve_inside_prefix g os p w Hw); rewrite Hfix;
      [reflexivity|apply Hin; reflexivity].
  - rewrite (resolve_no_workspace g os p Hw), Hfix. reflexivity.
Qed.

Lemma X8_resolve_file_path_idempotent_witness :
  Posixpath.isabs (getcwd os_home) = true /\
  Config.resolve_file_path globals_proj os_home "sub/../a.py"
  = (Some "/proj/a.py", None) /\
  Config.resolve_file_path globals_proj os_home "/proj/a.py"
  = (Some "/proj/a.py", None).
Proof.
  assert (Hres : Config.resolve_file_path globals_proj os_home "sub/../a.py"
                 = (Some "/proj/a.py", None)) by (vm_compute; reflexivity).
  split; [reflexivity|]. split; [exact Hres|].
  exact (X8_resolve_file_path_idempotent globals_proj os_home
           "sub/../a.py" "/proj/a.py" eq_refl Hres).
Defined.

(** X11: with an absolute current directory [set_active_workspace] stores
    and returns an absolute, normalized path, keeps the interpreter
    bindings, and setting the returned path again changes nothing. *)
Theorem X11_set_active_workspace_normalizes g os workspace :
  Posixpath.isabs (getcwd os) = true ->
  let w := fst (Config.set_active_workspace g os workspace) in
  let g' := snd (Config.set_active_workspace g os workspace) in
  normal_abs w /\
  Config.get_active_workspace g' = Some w /\
  Config._python_paths g' = Config._python_paths g /\
  Config._global_python_path g' = Config._global_python_path g /\
  Config.set_active_workspace g' os w = (w, g').
Proof.
  intros Hcwd. cbn zeta. unfold Config.set_active_workspace. cbn [fst snd].
  pose proof (ResolveFacts.abspath_normal_abs (getcwd os) workspace Hcwd) as Hn.
  split; [exact Hn|]. repeat split.
  cbn [Config._python_paths Config._global_python_path].
  rewrite (ResolveFacts.abspath_fixed (getcwd os) _ Hn). reflexivity.
Qed.

Lemma X11_set_active_workspace_normalizes_witness :
  Posixpath.isabs (getcwd os_home) = true /\
  Config.get_active_workspace
    (snd (Config.set_active_workspace globals_empty os_home "proj/./src/.."))
  = Some (fst (Config.set_active_workspace globals_empty os_home "proj/./src/..")) /\
  fst (Config.set_active_workspace globals_empty os_home "proj/./src/..")
  = "/home/u/proj".
Proof.
  split; [reflexivity|]. split; [|vm_compute; reflexivity].
  exact (proj1 (proj2 (X11_set_active_workspace_normalizes
                         globals_empty os_home "proj/./src/.." eq_refl))).
Defined.

(** X12: for an absolute path [is_file_in_workspace] and
    [resolve_file_path] agree: the first answers true exactly when the second
    returns a path, and that path is [abspath] of the input. *)
Theorem X12_absolute_paths_checked_alike g os file_path :
  Posixpath.isabs file_path = true ->
  (Config.is_file_in_workspace g os file_path = true ->
   Config.resolve_file_path g os file_path
   = (Some (Posixpath.abspath (getcwd os) file_path), None)) /\
  (Config.is_file_in_workspace g os file_path = false ->
   Config.validate_file_workspace g os file_path <> None).
Proof.
  intros Habs.
  assert (Hc : candidate_path g os file_path
               = Posixpath.abspath (getcwd os) file_path).
  { unfold candidate_path.
    rewrite PathFacts.is_absolute_parse, Habs. cbn [negb].
    rewrite abspath_isabs.
    - rewrite PathFacts.normpath_str_parse by exact Habs.
      symmetry. apply abspath_isabs, Habs.
    - rewrite PathFacts.str_parse_isabs by exact Habs.
      apply PathFacts.isabs_abs_form, PathFacts.initial_slashes_isabs, Habs. }
  unfold Config.is_file_in_workspace, Config.validate_file_workspace.
  destruct (Config.if_truthy (Config._active_workspace g)) as [w|] eqn:Hw.
  - split; intros Hin.
    + rewrite <- Hc in *. apply (resolve_inside_prefix g os _ w Hw Hin).
    + rewrite <- Hc in Hin.
      rewrite (resolve_outside_prefix g os _ w Hw Hin). discriminate.
  - split; [|discriminate]. intros _.
    rewrite (resolve_no_workspace g os _ Hw), Hc. reflexivity.
Qed.

Lemma X12_absolute_paths_checked_alike_witness :
  Posixpath.isabs "/other/a.py" = true /\
  Config.is_file_in_workspace globals_proj os_home "/other/a.py" = false /\
  Config.validate_file_workspace globals_proj os_home "/other/a.py" <> None.
Proof.
  split; [reflexivity|]. split; [reflexivity|].
  exact (proj2 (X12_absolute_paths_checked_alike globals_proj os_home
                  "/other/a.py" eq_refl) eq_refl).
Defined.

Example relative_paths_checked_differently :
  Config.is_file_in_workspace globals_proj os_home "a.py" = false /\
  Config.resolve_file_path globals_proj os_home "a.py"
  = (Some "/proj/a.py", None).
Proof. vm_compute. split; reflexivity. Qed.

(** ** Relative paths below the workspace *)

Module JoinFacts.
Import Posixpath.

Lemma split_not_nil s : split s <> [].
Proof.
  destruct s as [|c s]; cbn [split]; [discriminate|].
  destruct (Ascii.eqb c sep); [discriminate|].
  destruct (split s); discriminate.
Qed.

(** Splitting distributes over a separator. *)
Lemma split_sep_app a b :
  split (a +:+ String sep b) = (split a ++ split b)%list.
Proof.
  induction a as [|c a IH]; [reflexivity|].
  change (String c a +:+ String sep b) with (String c (a +:+ String sep b)).
  cbn [split]. rewrite IH.
  destruct (Ascii.eqb c sep); [reflexivity|].
  pose proof (split_not_nil a) as Hne.
  destruct (split a) as [|w ws]; [congruence|reflexivity].
Qed.

Lemma loop_app n l1 l2 acc :
  normpath_loop n (l1 ++ l2) acc = normpath_loop n l2 (normpath_loop n l1 acc).
Proof.
  revert acc. induction l1 as [|c l1 IH]; intros acc; [reflexivity|].
  cbn [app normpath_loop].
  destruct (String.eqb c "" || String.eqb c ".")%bool; [apply IH|].
  destruct (negb (String.eqb c "..")
            || (n =? 0)%nat && match acc with [] => true | _ => false end
            || match acc with last :: _ => String.eqb last ".." | [] => false end)%bool;
    apply IH.
Qed.

Lemma endswith_sep_inv w :
  endswith_sep w = true -> exists w', w = w' +:+ String sep "".
Proof.
  induction w as [|c w IH]; [discriminate|].
  cbn [endswith_sep]. destruct w as [|c' w'].
  - intros H. apply Ascii.eqb_eq in H as ->. exists "". reflexivity.
  - intros H. destruct (IH H) as [w0 Hw0]. exists (String c w0).
    rewrite Hw0. reflexivity.
Qed.

Lemma append_assoc a b c : (a +:+ b) +:+ c = a +:+ (b +:+ c).
Proof.
  induction a as [|x a IH]; [reflexivity|].
  change (String x ((a +:+ b) +:+ c) = String x (a +:+ (b +:+ c))).
  rewrite IH. reflexivity.
Qed.

(** The components [normpath] sees in [join(w, f)] are those of [w]
    followed by those of [f]. *)
Lemma loop_split_join n w f acc :
  isabs f = false ->
  normpath_loop n (split (join w f)) acc
  = normpath_loop n (split w ++ split f) acc.
Proof.
  intros Hf. unfold join. unfold isabs in Hf. rewrite Hf.
  destruct (String.eqb_spec w "") as [->|Hne]; cbn [orb].
  - reflexivity.
  - destruct (endswith_sep w) eqn:Hend.
    + destruct (endswith_sep_inv w Hend) as [w' ->].
      rewrite append_assoc. change (String sep "" +:+ f) with (String sep f).
      rewrite !split_sep_app, !loop_app. reflexivity.
    + change (w +:+ "/" +:+ f) with (w +:+ String sep f).
      rewrite split_sep_app. reflexivity.
Qed.

Lemma loop_no_dotdot n comps acc :
  forallb (fun c => negb (String.eqb c "..")) comps = true ->
  normpath_loop n comps acc
  = (rev (filter (fun x => Pathlib.keep_part x = true) comps) ++ acc)%list.
Proof.
  revert acc. induction comps as [|c comps IH]; intros acc H; [reflexivity|].
  cbn [forallb] in H. apply andb_true_iff in H as [Hc H].
  cbn [normpath_loop].
  destruct (Pathlib.keep_part c) eqn:Hk.
  - rewrite filter_cons_True by exact Hk.
    unfold Pathlib.keep_part in Hk. apply negb_true_iff in Hk.
    rewrite Hk, Hc. cbn [orb]. rewrite (IH _ H).
    cbn [rev]. rewrite <- app_assoc. reflexivity.
  - rewrite filter_cons_False by (rewrite Hk; discriminate).
    unfold Pathlib.keep_part in Hk. apply negb_false_iff in Hk.
    rewrite Hk. apply IH, H.
Qed.

Lemma initial_slashes_join w f :
  isabs w = true -> isabs f = false ->
  initial_slashes (join w f) = initial_slashes w.
Proof.
  intros Hw Hf. unfold join. unfold isabs in Hf. rewrite Hf.
  destruct w as [|c1 w1]; [discriminate|].
  unfold isabs in Hw. rewrite PathFacts.startswith_sep_cons in Hw.
  apply Ascii.eqb_eq in Hw as ->. unfold sep in *.
  destruct w1 as [|c2 w2].
  - cbn [String.eqb orb endswith_sep]. unfold sep.
    change (Ascii.eqb "/" "/") with true. cbn match.
    change (String "/" "" +:+ f) with (String "/" f).
    unfold initial_slashes, startswith in *.
    rewrite !PathFacts.prefix_cons, !PathFacts.prefix_empty, Hf. reflexivity.
  - destruct (Ascii.eqb "/" c2) eqn:Hc2.
    + apply Ascii.eqb_eq in Hc2 as <-.
      destruct w2 as [|c3 w3].
      * cbn [String.eqb orb endswith_sep]. unfold sep.
        change (Ascii.eqb "/" "/") with true. cbn match.
        change (String "/" (String "/" "") +:+ f)
          with (String "/" (String "/" f)).
        unfold initial_slashes, startswith in *.
        rewrite !PathFacts.prefix_cons, !PathFacts.prefix_empty, Hf. reflexivity.
      * destruct (String.eqb (String "/" (String "/" (String c3 w3))) ""
                  || endswith_sep (String "/" (String "/" (String c3 w3))))%bool;
          unfold initial_slashes, startswith;
          change (String "/" (String "/" (String c3 w3)) +:+ ?x)
            with (String "/" (String "/" (String c3 (w3 +:+ x))));
          rewrite !PathFacts.prefix_cons, !PathFacts.prefix_empty; reflexivity.
    + destruct (String.eqb (String "/" (String c2 w2)) ""
                || endswith_sep (String "/" (String c2 w2)))%bool;
        unfold initial_slashes, startswith;
        change (String "/" (String c2 w2) +:+ ?x)
          with (String "/" (String c2 (w2 +:+ x)));
        rewrite !PathFacts.prefix_cons, !PathFacts.prefix_empty, !Hc2;
        reflexivity.
Qed.

Lemma prefix_append a b : String.prefix a (a +:+ b) = true.
Proof.
  induction a as [|x a IH]; [apply PathFacts.prefix_empty|].
  change (String x a +:+ b) with (String x (a +:+ b)).
  rewrite PathFacts.prefix_cons, Ascii.eqb_refl, IH. reflexivity.
Qed.

Lemma prefix_append_same a b c :
  String.prefix (a +:+ b) (a +:+ c) = String.prefix b c.
Proof.
  induction a as [|x a IH]; [reflexivity|].
  change (String.prefix (String x (a +:+ b)) (String x (a +:+ c))
          = String.prefix b c).
  rewrite PathFacts.prefix_cons, Ascii.eqb_refl, IH. reflexivity.
Qed.

Lemma join_sep_cons2 x y l :
  join_sep (x :: y :: l) = x +:+ "/" +:+ join_sep (y :: l).
Proof. reflexivity. Qed.

(** Joining two non-empty lists of components. *)
Lemma join_sep_app a b :
  a <> [] -> b <> [] ->
  join_sep (a ++ b) = join_sep a +:+ "/" +:+ join_sep b.
Proof.
  intros Ha Hb. induction a as [|x a IH]; [congruence|].
  destruct a as [|y a].
  - destruct b as [|z b]; [congruence|]. reflexivity.
  - change ((x :: y :: a) ++ b)%list with (x :: y :: (a ++ b))%list.
    rewrite !join_sep_cons2.
    change (y :: (a ++ b))%list with ((y :: a) ++ b)%list.
    rewrite IH by discriminate. rewrite !append_assoc. reflexivity.
Qed.

(** [normpath(join(w, f))] for a workspace [w] and a relative [f] without
    [..]: the components of [w] followed by those of [f]. *)
Lemma normpath_join_below w f :
  normal_abs w -> isabs f = false -> no_dotdot f = true ->
  exists n cw,
    (n = 1 \/ n = 2) /\
    w = abs_form n cw /\
    normpath (join w f)
    = abs_form n (cw ++ filter (fun x => Pathlib.keep_part x = true) (split f)).
Proof.
  intros [Hw Hn] Hf Hdd.
  exists (initial_slashes w),
         (rev (normpath_loop (initial_slashes w) (split w) [])).
  split; [apply PathFacts.initial_slashes_isabs, Hw|].
  split; [rewrite <- (PathFacts.normpath_isabs w Hw); symmetry; exact Hn|].
  rewrite (PathFacts.normpath_isabs (join w f))
    by (apply PathFacts.isabs_join, Hw).
  rewrite (initial_slashes_join w f Hw Hf).
  rewrite (loop_split_join _ w f [] Hf), loop_app.
  rewrite (loop_no_dotdot _ (split f) _ Hdd).
  rewrite rev_app_distr, rev_involutive. reflexivity.
Qed.

Lemma is_descendant_below n cw kf :
  n = 1 \/ n = 2 ->
  is_descendant (abs_form n cw) (abs_form n (cw ++ kf)) = true.
Proof.
  intros Hn. unfold is_descendant. apply orb_true_iff.
  destruct kf as [|k kf].
  - left. rewrite app_nil_r. apply String.eqb_refl.
  - right. destruct cw as [|c cw].
    + assert (Hend : endswith_sep (abs_form n []) = true)
        by (destruct Hn as [-> | ->]; reflexivity).
      rewrite Hend. unfold abs_form, startswith.
      rewrite prefix_append_same. apply PathFacts.prefix_empty.
    + unfold abs_form, startswith.
      rewrite (join_sep_app (c :: cw) (k :: kf)) by discriminate.
      destruct (endswith_sep (slashes n +:+ join_sep (c :: cw))).
      * rewrite prefix_append_same. apply prefix_append.
      * rewrite append_assoc, !prefix_append_same. apply prefix_append.
Qed.

Lemma prefix_refl a : String.prefix a a = true.
Proof.
  induction a as [|x a IH]; [reflexivity|].
  rewrite PathFacts.prefix_cons, Ascii.eqb_refl, IH. reflexivity.
Qed.

Lemma startswith_below n cw kf :
  startswith (abs_form n (cw ++ kf)) (abs_form n cw) = true.
Proof.
  unfold abs_form, startswith. rewrite prefix_append_same.
  destruct kf as [|k kf]; [rewrite app_nil_r; apply prefix_refl|].
  destruct cw as [|c cw]; [apply PathFacts.prefix_empty|].
  rewrite (join_sep_app (c :: cw) (k :: kf)) by discriminate.
  apply prefix_append.
Qed.

End JoinFacts.

(** X9: in a workspace that is an absolute, normalized path, a relative
    path without [..] components always resolves, to the workspace joined
    with it, and the result is the workspace itself or lies below it at a
    separator: the sibling-directory confusion of the prefix test cannot
    arise for such inputs. *)
Theorem X9_relative_path_resolves_below_workspace g os w file_path :
  Config.get_active_workspace g = Some w ->
  normal_abs w ->
  Posixpath.isabs file_path = false ->
  no_dotdot file_path = true ->
  Config.resolve_file_path g os file_path
  = (Some (Posixpath.normpath (Posixpath.join w file_path)), None) /\
  is_descendant w (Posixpath.normpath (Posixpath.join w file_path)) = true.
Proof.
  intros Hg Hw Hf Hdd.
  destruct (JoinFacts.normpath_join_below w file_path Hw Hf Hdd)
    as (n & cw & Hn & Hwf & Hj).
  assert (Htr : Config.if_truthy (Config._active_workspace g) = Some w).
  { unfold Config.get_active_workspace in Hg. rewrite Hg.
    unfold Config.if_truthy. cbn [PyStr.opt_truthy].
    destruct w; [destruct Hw; discriminate|reflexivity]. }
  assert (Hc : candidate_path g os file_path
               = Posixpath.normpath (Posixpath.join w file_path)).
  { unfold candidate_path.
    rewrite PathFacts.is_absolute_parse, Hf, Htr. cbn [negb].
    apply abspath_isabs, PathFacts.isabs_join, Hw. }
  split.
  - rewrite <- Hc. apply (resolve_inside_prefix g os file_path w Htr).
    rewrite Hc, Hj. rewrite Hwf at 1. apply JoinFacts.startswith_below.
  - rewrite Hj. rewrite Hwf at 1. apply JoinFacts.is_descendant_below, Hn.
Qed.

Lemma X9_relative_path_resolves_below_workspace_witness :
  Config.get_active_workspace globals_proj = Some "/proj" /\
  normal_abs "/proj" /\
  Posixpath.isabs "./sub//a.py" = false /\
  no_dotdot "./sub//a.py" = true /\
  Config.resolve_file_path globals_proj os_home "./sub//a.py"
  = (Some (Posixpath.normpath (Posixpath.join "/proj" "./sub//a.py")), None).
Proof.
  assert (Hn : normal_abs "/proj") by (split; vm_compute; reflexivity).
  split; [reflexivity|]. split; [exact Hn|].
  split; [reflexivity|]. split; [reflexivity|].
  exact (proj1 (X9_relative_path_resolves_below_workspace
                  globals_proj os_home "/proj" "./sub//a.py"
                  eq_refl Hn eq_refl eq_refl)).
Defined.

Example dotdot_leaves_workspace :
  no_dotdot "../proj2/a.py" = false /\
  Config.resolve_file_path globals_proj os_home "../proj2/a.py"
  = (Some "/proj2/a.py", None).
Proof. vm_compute. split; reflexivity. Qed.

(** ** The workspace tools *)

Lemma resolve_workspace_itself g os w :
  Config.get_active_workspace g = Some w -> normal_abs w ->
  Config.resolve_file_path g os w = (Some w, None).
Proof.
  intros Hg Hw.
  assert (Htr : Config.if_truthy (Config._active_workspace g) = Some w).
  { unfold Config.get_active_workspace in Hg. rewrite Hg.
    unfold Config.if_truthy. cbn [PyStr.opt_truthy].
    destruct w; [destruct Hw; discriminate|reflexivity]. }
  rewrite (resolve_inside_prefix g os w w Htr);
    rewrite (ResolveFacts.candidate_path_fixed g os w Hw);
    [reflexivity|apply JoinFacts.prefix_refl].
Qed.

(** X13: [switch_workspace] on a path that is not a directory reports it
    and changes neither the workspace nor the sessions; on a directory it
    closes the sessions of the language server and then of rope, makes the
    absolute path the active workspace, keeps the interpreter bindings, and
    the workspace then resolves to itself. *)
Theorem X13_switch_workspace {Sessions} (close_lsp_clients rope_close_all :
    Sessions -> Sessions) (isdir : string -> bool) g os sessions path :
  Posixpath.isabs (getcwd os) = true ->
  let w := Posixpath.abspath (getcwd os) path in
  let r := ServerTools.switch_workspace Sessions close_lsp_clients
             rope_close_all isdir g os sessions path in
  (isdir w = false ->
   r = (ServerTools.InvalidPath ("'" +:+ path +:+ "' is not a directory."),
        g, sessions)) /\
  (isdir w = true ->
   r = (ServerTools.Switched
          ("Switched active workspace to: " +:+ w) w
          "All previous language server instances have been closed.",
        Config.mkGlobals (Config._python_paths g)
                         (Config._global_python_path g) (Some w),
        rope_close_all (close_lsp_clients sessions)) /\
   Config.resolve_file_path (snd (fst r)) os w = (Some w, None)).
Proof.
  intros Hcwd. cbn zeta. unfold ServerTools.switch_workspace.
  pose proof (ResolveFacts.abspath_normal_abs (getcwd os) path Hcwd) as Hn.
  split; intros Hdir; rewrite Hdir; cbn [negb]; [reflexivity|].
  unfold Config.set_active_workspace.
  rewrite (ResolveFacts.abspath_fixed (getcwd os) _ Hn).
  split; [reflexivity|]. cbn [fst snd].
  apply resolve_workspace_itself; [reflexivity|exact Hn].
Qed.

Lemma X13_switch_workspace_witness :
  Posixpath.isabs (getcwd os_home) = true /\
  isdir_proj (Posixpath.abspath (getcwd os_home) "/proj/sub/..") = true /\
  Config.get_active_workspace
    (snd (fst (ServerTools.switch_workspace nat (fun _ => 0) (fun n => n)
                 isdir_proj globals_work os_home 3 "/proj/sub/..")))
  = Some "/proj".
Proof.
  split; [reflexivity|]. split; [reflexivity|].
  pose proof (proj1 (proj2 (X13_switch_workspace (fun _ => 0) (fun n => n)
                              isdir_proj globals_work os_home 3 "/proj/sub/.."
                              eq_refl) eq_refl)) as H.
  rewrite H. reflexivity.
Defined.

Lemma resolved_path_truthy g os f p :
  Posixpath.isabs (getcwd os) = true ->
  Config.resolve_file_path g os f = (Some p, None) ->
  PyStr.truthy p = true.
Proof.
  intros Hcwd Hres.
  destruct (ResolveFacts.resolve_success g os f p Hres) as [-> _].
  destruct (ResolveFacts.candidate_path_normal g os f Hcwd) as [Ha _].
  destruct (candidate_path g os f); [discriminate|reflexivity].
Qed.

(** X14: [search] never hands the search engine a path that
    [resolve_file_path] refused: a refused path gives the error dictionary
    whatever the engine is; an accepted path is searched in its resolved
    form; without a path the active workspace is searched. *)
Theorem X14_search_path {R}
    (get_search : string -> option string -> option string -> bool -> Z -> R)
    g os pattern path glob case_sensitive max_results :
  Posixpath.isabs (getcwd os) = true ->
  (forall p e, path = Some p -> PyStr.truthy p = true ->
     Config.resolve_file_path g os p = (None, Some e) ->
     ServerTools.search R get_search g os pattern path glob case_sensitive
       max_results = ServerTools.ErrorDict e) /\
  (forall p q, path = Some p -> PyStr.truthy p = true ->
     Config.resolve_file_path g os p = (Some q, None) ->
     ServerTools.search R get_search g os pattern path glob case_sensitive
       max_results
     = ServerTools.Result
         (get_search pattern (Some q) glob case_sensitive max_results)
         "ripgrep") /\
  (forall w, PyStr.opt_truthy path = false ->
     Config.if_truthy (Config.get_active_workspace g) = Some w ->
     ServerTools.search R get_search g os pattern path glob case_sensitive
       max_results
     = ServerTools.Result
         (get_search pattern (Some w) glob case_sensitive max_results)
         "ripgrep").
Proof.
  intros Hcwd. unfold ServerTools.search. split; [|split].
  - intros p e -> Hp Hres. unfold Config.if_truthy at 1.
    cbn [PyStr.opt_truthy]. rewrite Hp, Hres. reflexivity.
  - intros p q -> Hp Hres. unfold Config.if_truthy at 1.
    cbn [PyStr.opt_truthy]. rewrite Hp, Hres.
    pose proof (resolved_path_truthy g os p q Hcwd Hres) as Hq.
    unfold Config.if_truthy. cbn [PyStr.opt_truthy]. rewrite Hq. reflexivity.
  - intros w Hp Hw. unfold Config.if_truthy at 1. rewrite Hp.
    unfold Config.if_truthy at 1. rewrite Hp, Hw. reflexivity.
Qed.

Lemma X14_search_path_witness :
  Posixpath.isabs (getcwd os_home) = true /\
  PyStr.truthy "/other" = true /\
  (exists e,
     Config.resolve_file_path globals_proj os_home "/other" = (None, Some e) /\
     ServerTools.search nat (fun _ _ _ _ _ => 7) globals_proj os_home
       "TODO" (Some "/other") None true 50 = ServerTools.ErrorDict e).
Proof.
  split; [reflexivity|]. split; [reflexivity|].
  destruct (Config.resolve_file_path globals_proj os_home "/other")
    as [[q|] [e|]] eqn:Hres; try (vm_compute in Hres; discriminate).
  exists e. split; [reflexivity|].
  exact (proj1 (X14_search_path (fun _ _ _ _ _ => 7) globals_proj os_home
                  "TODO" (Some "/other") None true 50 eq_refl)
           "/other" e eq_refl eq_refl Hres).
Defined.

(** X15: [hover] on a path that [resolve_file_path] refuses returns the
    error dictionary, whatever the two backends are; on an accepted path the
    reply, a result or the text of an exception, names the backend
    [_get_effective_backend] chose for [hover], and rope is asked about
    the resolved path. *)
Theorem X15_hover_names_effective_backend {R C}
    (find_workspace_for_file : option string -> ServerTools.outcome string)
    (lsp_hover : string -> option string -> Z -> Z
                 -> ServerTools.outcome (option C))
    (rope_hover : option string -> Z -> Z -> R)
    cfg g os file line column backend :
  (forall e, Config.resolve_file_path g os file = (None, Some e) ->
     ServerTools.hover R find_workspace_for_file C lsp_hover rope_hover
       cfg g os file line column backend = ServerTools.ErrorDict e) /\
  (forall p, Config.resolve_file_path g os file = (Some p, None) ->
     reply_backend
       (ServerTools.hover R find_workspace_for_file C lsp_hover rope_hover
          cfg g os file line column backend)
     = Some (Config.Backend_value
               (Server._get_effective_backend cfg "hover" backend)) /\
     (Server._get_effective_backend cfg "hover" backend = Config.ROPE ->
      ServerTools.hover R find_workspace_for_file C lsp_hover rope_hover
        cfg g os file line column backend
      = ServerTools.Result
          (ServerTools.RopeResult (rope_hover (Some p) line column)) "rope")).
Proof.
  unfold ServerTools.hover. split.
  - intros e ->. reflexivity.
  - intros p ->.
    destruct (Server._get_effective_backend cfg "hover" backend).
    + split; [reflexivity|]. intros _. reflexivity.
    + split; [|discriminate].
      destruct (ServerTools._find_workspace find_workspace_for_file g (Some p))
        as [w|msg]; [|reflexivity].
      destruct (lsp_hover w (Some p) line column); reflexivity.
Qed.

Lemma X15_hover_names_effective_backend_witness :
  Config.resolve_file_path globals_proj os_home "a.py"
  = (Some "/proj/a.py", None) /\
  reply_backend
    (ServerTools.hover nat (fun _ => ServerTools.Raised "no project") nat
       (fun _ _ _ _ => ServerTools.Raised "pyright is not installed")
       (fun _ _ _ => 0)
       (Config.mkServerConfig Config.ROPE ∅) globals_proj os_home
       "a.py" 1 1 (Some "Pyright"))
  = Some "pyright".
Proof.
  assert (Hres : Config.resolve_file_path globals_proj os_home "a.py"
                 = (Some "/proj/a.py", None)) by (vm_compute; reflexivity).
  split; [exact Hres|].
  exact (proj1 (proj2 (X15_hover_names_effective_backend
                         (fun _ => ServerTools.Raised "no project")
                         (fun _ _ _ _ => ServerTools.Raised "pyright is not installed")
                         (fun _ _ _ => 0)
                         (Config.mkServerConfig Config.ROPE ∅) globals_proj
                         os_home "a.py" 1 1 (Some "Pyright"))
                  "/proj/a.py" Hres)).
Defined.

(** ** What the discovery returns *)

Module DiscoveryFacts.
Import Config.

Ltac break_hyp H :=
  match type of H with
  | context [match ?x with _ => _ end] => destruct x eqn:?
  end.

Lemma existing_exists os q p :
  (if path_exists os q then Some (Pathlib.str q) else None) = Some p ->
  fs_exists os p = true.
Proof.
  destruct (path_exists os q) eqn:H; intros [= <-]. exact H.
Qed.

Lemma find_venv_loop_sound os root dirs p :
  find_venv_loop os root dirs = Some p ->
  exists d, d ∈ dirs /\ p = Pathlib.str (venv_python_exe os root d) /\
            fs_exists os p = true.
Proof.
  induction dirs as [|d dirs IH]; cbn [find_venv_loop]; [discriminate|].
  destruct (path_exists os (venv_python_exe os root d)) eqn:He.
  - intros [= <-]. exists d. split; [left|]. split; [reflexivity|exact He].
  - intros H. destruct (IH H) as (d' & Hin & Hp & Hex).
    exists d'. split; [right; exact Hin|]. split; assumption.
Qed.


(** Whatever the configuration holds, a path that
    [_extract_python_path_from_pyright] returns exists. *)
Lemma extract_sound os config root p :
  _extract_python_path_from_pyright os config root = Py.Ok (Some p) ->
  fs_exists os p = true.
Proof.
  unfold _extract_python_path_from_pyright, Py.bind.
  intros H.
  assert (Hvenv :
    match Py.get config "venvPath" Py.VNone with
    | Py.Ok venv_path =>
        match Py.get config "venv" Py.VNone with
        | Py.Ok venv_name =>
            if (Py.truthy venv_path && Py.truthy venv_name)%bool then
              match Py.to_path venv_path with
              | Py.Ok venv_dir =>
                  match Py.truediv
                          (if negb (Pathlib.is_absolute venv_dir)
                           then root // venv_dir else venv_dir) venv_name with
                  | Py.Ok venv_dir0 =>
                      Py.Ok
                        (if path_exists os
                              (if win32 os
                               then venv_dir0 // Pathlib.parse "Scripts"
                                    // Pathlib.parse "python.exe"
                               else venv_dir0 // Pathlib.parse "bin"
                                    // Pathlib.parse "python")
                         then Some (Pathlib.str
                              (if win32 os
                               then venv_dir0 // Pathlib.parse "Scripts"
                                    // Pathlib.parse "python.exe"
                               else venv_dir0 // Pathlib.parse "bin"
                                    // Pathlib.parse "python"))
                         else None)
                  | Py.Raise e => Py.Raise e
                  end
              | Py.Raise e => Py.Raise e
              end
            else Py.Ok None
        | Py.Raise e => Py.Raise e
        end
    | Py.Raise e => Py.Raise e
    end = Py.Ok (Some p) -> fs_exists os p = true).
  { clear H. intros H.
    destruct (Py.get config "venvPath" Py.VNone) as [vp|]; [|discriminate].
    destruct (Py.get config "venv" Py.VNone) as [vn|]; [|discriminate].
    destruct (Py.truthy vp && Py.truthy vn)%bool; [|discriminate].
    destruct (Py.to_path vp) as [vd|]; [|discriminate].
    destruct (Py.truediv _ vn) as [vd'|]; [|discriminate].
    injection H as H. exact (existing_exists os _ p H). }
  destruct (Py.contains "pythonPath" config) as [has|]; [|discriminate].
  destruct has; [|exact (Hvenv H)].
  destruct (Py.getitem config "pythonPath") as [v|]; [|discriminate].
  destruct (Py.to_path v) as [q|]; [|discriminate].
  cbn beta iota zeta in H.
  match type of H with
  | context [path_exists os ?x] => destruct (path_exists os x) eqn:He
  end.
  - revert H. intros [= <-]. exact He.
  - exact (Hvenv H).
Qed.

Lemma if_truthy_inv o p : if_truthy o = Some p -> o = Some p.
Proof. unfold if_truthy. destruct (PyStr.opt_truthy o); congruence. Qed.

Lemma find_pyright_sound os ws p :
  find_pyright_python_path os ws = Py.Ok (Some p) -> fs_exists os p = true.
Proof.
  unfold find_pyright_python_path, Py.bind.
  set (root := Pathlib.parse ws).
  intros H.
  match type of H with
  | context [match _ with Some _ => _ | None => ?T end] =>
      assert (Htoml : T = Py.Ok (Some p) -> fs_exists os p = true)
  end.
  { clear H. intros H.
    destruct (path_exists os (root // Pathlib.parse "pyproject.toml"));
      [|discriminate].
    unfold Py.try_except in H.
    destruct (toml_load os _) as [tc|e];
      [|destruct (handled_toml e); discriminate].
    destruct (Py.get tc "tool" (Py.VDict [])) as [tool|e];
      [|destruct (handled_toml e); discriminate].
    destruct (Py.get tool "pyright" (Py.VDict [])) as [pc|e];
      [|destruct (handled_toml e); discriminate].
    destruct (_extract_python_path_from_pyright os pc root) as [r|e] eqn:He;
      [|destruct (handled_toml e); discriminate].
    revert H. intros [= H]. apply if_truthy_inv in H as ->.
    exact (extract_sound os pc root p He). }
  destruct (path_exists os (root // Pathlib.parse "pyrightconfig.json"));
    [|exact (Htoml H)].
  unfold Py.try_except in H.
  destruct (json_load os _) as [cfg|e];
    [|destruct (handled_json e); [exact (Htoml H)|discriminate]].
  destruct (_extract_python_path_from_pyright os cfg root) as [r|e] eqn:He;
    [|destruct (handled_json e); [exact (Htoml H)|discriminate]].
  destruct (if_truthy r) as [q|] eqn:Hq; [|exact (Htoml H)].
  revert H. intros [= <-]. apply if_truthy_inv in Hq as ->.
  exact (extract_sound os cfg root q He).
Qed.

End DiscoveryFacts.



(** X17: whatever the configuration files hold, a path that
    [find_pyright_python_path] returns exists; and the interpreter
    [get_python_path_for_workspace] returns is a stored override, the
    running interpreter, or a path that exists. *)
Theorem X17_discovered_interpreter_exists g os workspace p :
  (Config.find_pyright_python_path os workspace = Py.Ok (Some p) ->
   fs_exists os p = true) /\
  (Config.get_python_path_for_workspace g os workspace = Py.Ok p ->
   Config._python_paths g !! Posixpath.abspath (getcwd os) workspace = Some p \/
   Config._global_python_path g = Some p \/
   fs_exists os p = true \/
   p = sys_executable os).
Proof.
  split; [apply DiscoveryFacts.find_pyright_sound|].
  unfold Config.get_python_path_for_workspace.
  set (w := Posixpath.abspath (getcwd os) workspace).
  destruct (Config._python_paths g !! w) as [b|]; [intros [= ->]; auto|].
  destruct (Config.if_truthy (Config._global_python_path g)) as [b|] eqn:Hg.
  - intros [= ->]. right. left.
    apply DiscoveryFacts.if_truthy_inv, Hg.
  - unfold Py.bind.
    destruct (Config.find_pyright_python_path os w) as [r|e] eqn:Hr;
      [|discriminate].
    destruct (Config.if_truthy r) as [q|] eqn:Hq.
    + intros [= ->]. right. right. left.
      apply DiscoveryFacts.if_truthy_inv in Hq as ->.
      exact (DiscoveryFacts.find_pyright_sound os w p Hr).
    + destruct (Config.if_truthy (Config.find_venv_python_path os w))
        as [q|] eqn:Hv.
      * intros [= ->]. right. right. left.
        apply DiscoveryFacts.if_truthy_inv in Hv.
        destruct (DiscoveryFacts.find_venv_loop_sound os _ _ p Hv)
          as (d & _ & _ & Hex). exact Hex.
      * intros [= ->]. right. right. right. reflexivity.
Qed.

Lemma X17_discovered_interpreter_exists_witness :
  Config.get_python_path_for_workspace globals_empty os_proj "/proj"
  = Py.Ok "/proj/myenv/bin/python" /\
  (Config._python_paths globals_empty
     !! Posixpath.abspath (getcwd os_proj) "/proj"
   = Some "/proj/myenv/bin/python" \/
   Config._global_python_path globals_empty = Some "/proj/myenv/bin/python" \/
   fs_exists os_proj "/proj/myenv/bin/python" = true \/
   "/proj/myenv/bin/python" = sys_executable os_proj).
Proof.
  assert (H : Config.get_python_path_for_workspace globals_empty os_proj "/proj"
              = Py.Ok "/proj/myenv/bin/python") by (vm_compute; reflexivity).
  split; [exact H|].
  exact (proj2 (X17_discovered_interpreter_exists globals_empty os_proj
                  "/proj" "/proj/myenv/bin/python") H).
Defined.

(** ** Setting and looking up interpreters *)

(** X18: [set_python_path] for one workspace, whether it succeeds or not,
    does not change the interpreter of any workspace with a different
    absolute path. *)
Theorem X18_set_python_path_other_workspace g os python_path w other :
  PyStr.truthy w = true ->
  Posixpath.abspath (getcwd os) other <> Posixpath.abspath (getcwd os) w ->
  Config.get_python_path_for_workspace
    (snd (Config.set_python_path g os python_path (Some w))) os other
  = Config.get_python_path_for_workspace g os other.
Proof.
  intros Hw Hne. unfold Config.set_python_path.
  destruct (path_exists os (Pathlib.parse python_path)); [|reflexivity].
  destruct (fs_access_x os python_path); [|reflexivity].
  cbn [negb]. unfold Config.if_truthy at 1. cbn [PyStr.opt_truthy].
  rewrite Hw. cbn [snd].
  unfold Config.get_python_path_for_workspace.
  cbn [Config._python_paths Config._global_python_path].
  rewrite lookup_insert_ne by congruence. reflexivity.
Qed.

Lemma X18_set_python_path_other_workspace_witness :
  PyStr.truthy "proj" = true /\
  Posixpath.abspath (getcwd os_home) "/proj"
  <> Posixpath.abspath (getcwd os_home) "proj" /\
  Config.get_python_path_for_workspace
    (snd (Config.set_python_path globals_empty os_home "/usr/bin/python3"
            (Some "proj"))) os_home "/proj"
  = Config.get_python_path_for_workspace globals_empty os_home "/proj".
Proof.
  assert (Hne : Posixpath.abspath (getcwd os_home) "/proj"
                <> Posixpath.abspath (getcwd os_home) "proj")
    by (vm_compute; discriminate).
  split; [reflexivity|]. split; [exact Hne|].
  exact (X18_set_python_path_other_workspace globals_empty os_home
           "/usr/bin/python3" "proj" "/proj" eq_refl Hne).
Defined.

(** X19: after a successful [set_python_path] without a workspace, every
    workspace that has a binding of its own keeps it, and every other
    workspace gets the new global path, before any configuration file is
    read. *)
Theorem X19_global_override_below_workspace_bindings g os python_path
    workspace other :
  PyStr.opt_truthy workspace = false ->
  path_exists os (Pathlib.parse python_path) = true ->
  fs_access_x os python_path = true ->
  fs_access_x os "" = false ->
  Config.get_python_path_for_workspace
    (snd (Config.set_python_path g os python_path workspace)) os other
  = Py.Ok (default python_path
             (Config._python_paths g !! Posixpath.abspath (getcwd os) other)).
Proof.
  intros Hw He Ha Hempty. unfold Config.set_python_path.
  rewrite He, Ha. cbn [negb]. unfold Config.if_truthy at 1. rewrite Hw.
  cbn [snd]. unfold Config.get_python_path_for_workspace.
  cbn [Config._python_paths Config._global_python_path].
  destruct (Config._python_paths g !! Posixpath.abspath (getcwd os) other);
    [reflexivity|].
  destruct python_path; [congruence|reflexivity].
Qed.

Lemma X19_global_override_below_workspace_bindings_witness :
  PyStr.opt_truthy None = false /\
  path_exists os_home (Pathlib.parse "/usr/bin/python3") = true /\
  fs_access_x os_home "/usr/bin/python3" = true /\
  fs_access_x os_home "" = false /\
  Config.get_python_path_for_workspace
    (snd (Config.set_python_path globals_empty os_home "/usr/bin/python3" None))
    os_home "anything"
  = Py.Ok "/usr/bin/python3".
Proof.
  repeat (split; [reflexivity|]).
  exact (X19_global_override_below_workspace_bindings globals_empty os_home
           "/usr/bin/python3" None "anything" eq_refl eq_refl eq_refl eq_refl).
Defined.

(** ** Workspace edits *)

Module ApplyFacts.
Import Server.

Lemma sort_desc_descending l : descending l -> sort_desc l = l.
Proof.
  induction 1 as [|x l Hs IH Hall]; [reflexivity|].
  cbn [sort_desc foldr]. fold (sort_desc l). rewrite IH.
  destruct l as [|y l]; [reflexivity|].
  cbn [insert_desc]. inversion Hall as [|? ? Hxy _]; subst.
  rewrite Hxy. reflexivity.
Qed.

Lemma strip_scheme_free p : scheme_free p -> strip_scheme 0 p = p.
Proof.
  induction p as [|c p IH]; intros Hfree; [reflexivity|].
  pose proof (Hfree 0) as H0. cbn [drop] in H0.
  cbn [strip_scheme]. rewrite H0. f_equal. apply IH.
  intros n. exact (Hfree (S n)).
Qed.

Lemma strip_scheme_prefix p :
  strip_scheme 0 ("file://" +:+ p) = strip_scheme 0 p.
Proof.
  change ("file://" +:+ p)
    with (String "f" (String "i" (String "l" (String "e"
            (String ":" (String "/" (String "/" p))))))).
  cbn [strip_scheme].
  change (String "f" (String "i" (String "l" (String "e"
            (String ":" (String "/" (String "/" p)))))))
    with ("file://" +:+ p).
  rewrite JoinFacts.prefix_append. reflexivity.
Qed.

Section ApplyWorkspaceEdit.
Variable position_to_offset : string -> nat -> nat -> nat.
Variable win32 : bool.
Variable inode_of : string -> option nat.

Local Abbreviation run := (_apply_workspace_edit position_to_offset win32 inode_of).

(** One step of the loop, on the path the change names. *)
Lemma apply_cons inodes change changes :
  run inodes (change :: changes)
  = match inode_of (target_path win32 (fst change)) with
    | None => run inodes changes
    | Some k =>
        match inodes !! k with
        | None => run inodes changes
        | Some (NoText e) => (inodes, Some e)
        | Some (Regular text writable) =>
            if writable
            then run (<[k := Regular
                              (write_text win32
                                 (apply_text_edits position_to_offset
                                    (read_text text) (snd change)))
                              true]> inodes) changes
            else (inodes, Some Py.OSError)
        end
    end.
Proof. reflexivity. Qed.

Lemma apply_dom inodes changes :
  dom (fst (run inodes changes)) = dom inodes.
Proof.
  revert inodes. induction changes as [|change changes IH]; intros inodes;
    [reflexivity|].
  rewrite apply_cons.
  destruct (inode_of _) as [k|]; [|apply IH].
  destruct (inodes !! k) as [[text [|]|e]|] eqn:Hk;
    [|reflexivity|reflexivity|apply IH].
  rewrite IH, dom_insert_L.
  assert (k ∈ dom inodes) by (apply elem_of_dom; eauto).
  apply set_eq. intros x. rewrite elem_of_union, elem_of_singleton.
  split; [intros [->|]; assumption|auto].
Qed.

Lemma apply_frame inodes changes k :
  (forall change, change ∈ changes ->
     inode_of (target_path win32 (fst change)) <> Some k) ->
  fst (run inodes changes) !! k = inodes !! k.
Proof.
  revert inodes. induction changes as [|change changes IH];
    intros inodes Hk; [reflexivity|].
  assert (Hrest : forall c, c ∈ changes ->
            inode_of (target_path win32 (fst c)) <> Some k)
    by (intros c Hc; apply Hk; right; exact Hc).
  assert (Hhead : inode_of (target_path win32 (fst change)) <> Some k)
    by (apply Hk; left).
  rewrite apply_cons.
  destruct (inode_of _) as [k'|]; [|apply IH, Hrest].
  destruct (inodes !! k') as [[text [|]|e]|] eqn:Hk';
    [|reflexivity|reflexivity|apply IH, Hrest].
  rewrite (IH _ Hrest). apply lookup_insert_ne. congruence.
Qed.

(** Only a writable regular file is ever rewritten. *)
Lemma apply_keeps inodes changes k i :
  (forall text, i <> Regular text true) ->
  inodes !! k = Some i ->
  fst (run inodes changes) !! k = Some i.
Proof.
  intros Hi. revert inodes. induction changes as [|change changes IH];
    intros inodes Hk; [exact Hk|].
  rewrite apply_cons.
  destruct (inode_of _) as [k'|]; [|apply IH, Hk].
  destruct (inodes !! k') as [[text [|]|e]|] eqn:Hk';
    [|exact Hk|exact Hk|apply IH, Hk].
  apply IH. rewrite lookup_insert_ne; [exact Hk|].
  intros ->. rewrite Hk in Hk'. injection Hk' as ->. exact (Hi _ eq_refl).
Qed.

Lemma apply_skips inodes changes :
  (forall change, change ∈ changes ->
     inode_of (target_path win32 (fst change)) ≫= (inodes !!.) = None) ->
  run inodes changes = (inodes, None).
Proof.
  induction changes as [|change changes IH]; intros Hno; [reflexivity|].
  rewrite apply_cons.
  pose proof (Hno change ltac:(left)) as Hhead.
  assert (Hrest : forall c, c ∈ changes ->
            inode_of (target_path win32 (fst c)) ≫= (inodes !!.) = None)
    by (intros c Hc; apply Hno; right; exact Hc).
  destruct (inode_of _) as [k|]; [|apply IH, Hrest].
  cbn in Hhead. rewrite Hhead. apply IH, Hrest.
Qed.

End ApplyWorkspaceEdit.

End ApplyFacts.

(** X20: edits that arrive in descending order of their start positions
    are left in that order by the sort, edits with equal starts included,
    and are substituted one after the other as given. *)
Theorem X20_descending_edits_applied_in_order
    (position_to_offset : string -> nat -> nat -> nat) content l :
  descending l ->
  Server.sort_desc l = l /\
  Server.apply_text_edits position_to_offset content l
  = foldl (Server.apply_text_edit position_to_offset) content l.
Proof.
  intros H. pose proof (ApplyFacts.sort_desc_descending l H) as Hs.
  split; [exact Hs|]. unfold Server.apply_text_edits. rewrite Hs. reflexivity.
Qed.

Lemma X20_descending_edits_applied_in_order_witness :
  descending [edit_line1; edit_line0; edit_line0] /\
  Server.sort_desc [edit_line1; edit_line0; edit_line0]
  = [edit_line1; edit_line0; edit_line0].
Proof.
  assert (H : descending [edit_line1; edit_line0; edit_line0])
    by (repeat constructor).
  split; [exact H|].
  exact (proj1 (X20_descending_edits_applied_in_order
                  RopeClient.position_to_offset "" _ H)).
Defined.

(** X21: [_apply_workspace_edit] neither creates nor removes a file, and
    it leaves every file that no change names, whatever the spelling of
    the paths: a file is left as it was whenever no URI of a change
    resolves to it.  Files that cannot be read as text and read-only files
    are never changed.  When none of the paths exists, every change is
    skipped: nothing is written and nothing raised. *)
Theorem X21_apply_workspace_edit_frame
    (position_to_offset : string -> nat -> nat -> nat) win32
    (inode_of : string -> option nat) (inodes : gmap nat Server.inode)
    changes :
  dom (fst (Server._apply_workspace_edit position_to_offset win32
              inode_of inodes changes))
  = dom inodes /\
  (forall k,
     (forall change, change ∈ changes ->
        inode_of (target_path win32 (fst change)) <> Some k) ->
     fst (Server._apply_workspace_edit position_to_offset win32
            inode_of inodes changes) !! k
     = inodes !! k) /\
  (forall k e, inodes !! k = Some (Server.NoText e) ->
     fst (Server._apply_workspace_edit position_to_offset win32
            inode_of inodes changes) !! k
     = Some (Server.NoText e)) /\
  (forall k text, inodes !! k = Some (Server.Regular text false) ->
     fst (Server._apply_workspace_edit position_to_offset win32
            inode_of inodes changes) !! k
     = Some (Server.Regular text false)) /\
  ((forall change, change ∈ changes ->
      inode_of (target_path win32 (fst change)) ≫= (inodes !!.) = None) ->
   Server._apply_workspace_edit position_to_offset win32
     inode_of inodes changes
   = (inodes, None)).
Proof.
  split; [apply ApplyFacts.apply_dom|].
  split; [apply ApplyFacts.apply_frame|].
  split; [intros k e; apply ApplyFacts.apply_keeps; intros ? ?; discriminate|].
  split; [intros k text; apply ApplyFacts.apply_keeps; intros ? ?; discriminate|].
  apply ApplyFacts.apply_skips.
Qed.

Lemma X21_apply_workspace_edit_frame_witness :
  (forall change, change ∈ [("file:///proj/./a.py", [edit_line0])] ->
     inode_of_proj (target_path false (fst change)) <> Some 2) /\
  fst (Server._apply_workspace_edit RopeClient.position_to_offset false
         inode_of_proj inodes_proj
         [("file:///proj/./a.py", [edit_line0])]) !! 2
  = inodes_proj !! 2.
Proof.
  assert (H : forall change : string * list Server.TextEdit,
            change ∈ [("file:///proj/./a.py", [edit_line0])] ->
            inode_of_proj (target_path false (fst change)) <> Some 2).
  { intros change Hc. apply list_elem_of_singleton in Hc as ->.
    vm_compute. discriminate. }
  split; [exact H|].
  exact (proj1 (proj2 (X21_apply_workspace_edit_frame
                         RopeClient.position_to_offset
                         false inode_of_proj inodes_proj _)) 2 H).
Defined.

(** A change spelled [file:///proj/./a.py] rewrites the file that
    [/proj/a.py] names. *)
Example apply_workspace_edit_other_spelling :
  Server._apply_workspace_edit RopeClient.position_to_offset false
    inode_of_proj inodes_proj [("file:///proj/./a.py", [edit_line0])]
  = (<[1 := Server.Regular ("LINE1" +:+ Config.nl +:+ "line2" +:+ Config.nl)
                           true]> inodes_proj,
     None).
Proof. vm_compute. reflexivity. Qed.

(** A file that cannot be read as text ends the loop: the change before it
    is written, the change after it is not. *)
Example apply_workspace_edit_raises :
  Server._apply_workspace_edit RopeClient.position_to_offset false
    inode_of_proj
    {[ 1 := Server.Regular two_lines true;
       2 := Server.NoText Py.UnicodeDecodeError ]}
    [("file:///proj/a.py", [edit_line0]);
     ("file:///proj/b.py", [edit_line0]);
     ("file:///proj/a.py", [edit_line1])]
  = ({[ 1 := Server.Regular ("LINE1" +:+ Config.nl +:+ "line2" +:+ Config.nl)
                            true;
        2 := Server.NoText Py.UnicodeDecodeError ]},
     Some Py.UnicodeDecodeError).
Proof. vm_compute. reflexivity. Qed.

(** Line ends in text mode: read as [\n]; written as [\r\n] on [win32]
    only. *)
Example text_mode_line_ends :
  Server.read_text
    (String "a" (String Server.CR (String Server.LF
       (String "b" (String Server.CR "c")))))
  = String "a" (String Server.LF (String "b" (String Server.LF "c"))) /\
  Server.write_text true (String "a" (String Server.LF "b"))
  = String "a" (String Server.CR (String Server.LF "b")) /\
  Server.write_text false (String "a" (String Server.LF "b"))
  = String "a" (String Server.LF "b").
Proof. repeat split. Qed.

(** X22: [uri.replace("file://", "")] turns the URI of a path in which
    [file://] does not occur into that path. *)
Theorem X22_strip_scheme_of_file_uri p :
  scheme_free p -> Server.strip_scheme 0 ("file://" +:+ p) = p.
Proof.
  intros H. rewrite ApplyFacts.strip_scheme_prefix.
  apply ApplyFacts.strip_scheme_free, H.
Qed.

Lemma X22_strip_scheme_of_file_uri_witness :
  scheme_free "/proj/a.py" /\
  Server.strip_scheme 0 ("file://" +:+ "/proj/a.py") = "/proj/a.py".
Proof.
  assert (H : scheme_free "/proj/a.py").
  { intros n. do 11 (destruct n as [|n]; [reflexivity|]). reflexivity. }
  split; [exact H|].
  exact (X22_strip_scheme_of_file_uri "/proj/a.py" H).
Defined.

Example strip_scheme_inside_path :
  Server.strip_scheme 0 "file:///srv/file://share/a.py" = "/srv/share/a.py".
Proof. vm_compute. reflexivity. Qed.

(** ** From the environment to the routing *)

(** X4: with the configuration read from the environment and no per-call
    argument, a shared tool is served by the backend its own variable
    [<TOOL>_BACKEND] names, else by the one [BACKEND] names, else by rope;
    a variable that names no backend counts as unset. *)
Theorem X4_environment_routes_shared_tools environ tool :
  tool ∈ Config.SHARED_TOOLS ->
  Server._get_effective_backend (ConfigEnv.from_env environ) tool None
  = default
      (default Config.ROPE
         (ConfigEnv.get_env environ "BACKEND" ≫= Config.Backend_of_value))
      (ConfigEnv.get_env environ (ConfigEnv.upper tool +:+ "_BACKEND")
       ≫= Config.Backend_of_value).
Proof.
  intros Htool. rewrite effective_backend_cases. cbn [explicit_backend].
  rewrite get_backend_for_unpinned by (apply shared_not_pinned, Htool).
  rewrite EnvFacts.from_env_lookup, EnvFacts.from_env_default.
  rewrite (decide_True (P := tool ∈ Config.SHARED_TOOLS)) by exact Htool.
  reflexivity.
Qed.

Lemma X4_environment_routes_shared_tools_witness :
  "definition" ∈ Config.SHARED_TOOLS /\
  Server._get_effective_backend (ConfigEnv.from_env environ_sample)
    "definition" None = Config.PYRIGHT.
Proof.
  assert (Hin : "definition" ∈ Config.SHARED_TOOLS)
    by (apply (bool_decide_unpack ("definition" ∈ Config.SHARED_TOOLS));
        vm_compute; exact I).
  split; [exact Hin|].
  rewrite (X4_environment_routes_shared_tools environ_sample "definition" Hin).
  vm_compute. reflexivity.
Defined.

(** ** No false refusals *)

Lemma prefix_app_l a b s :
  String.prefix (a +:+ b) s = true -> String.prefix a s = true.
Proof.
  revert s. induction a as [|x a IH]; intros s H;
    [apply PathFacts.prefix_empty|].
  destruct s as [|y s]; [discriminate|].
  change (String x a +:+ b) with (String x (a +:+ b)) in H.
  rewrite PathFacts.prefix_cons in *.
  apply andb_true_iff in H as [Hxy H].
  rewrite Hxy, (IH s H). reflexivity.
Qed.

Lemma is_descendant_startswith w p :
  is_descendant w p = true -> Posixpath.startswith p w = true.
Proof.
  unfold is_descendant, Posixpath.startswith. intros H.
  apply orb_true_iff in H as [H|H].
  - apply String.eqb_eq in H as ->. apply JoinFacts.prefix_refl.
  - destruct (Posixpath.endswith_sep w); [exact H|].
    exact (prefix_app_l w "/" p H).
Qed.

(** X10: the prefix test errs on one side only: an absolute, normalized
    path that is the active workspace or lies below it at a separator is
    never refused, and is returned unchanged. *)
Theorem X10_descendants_are_accepted g os w file_path :
  Config.get_active_workspace g = Some w ->
  normal_abs file_path ->
  is_descendant w file_path = true ->
  Config.resolve_file_path g os file_path = (Some file_path, None).
Proof.
  intros Hg Hf Hd.
  pose proof (ResolveFacts.candidate_path_fixed g os file_path Hf) as Hfix.
  destruct (Config.if_truthy (Config._active_workspace g)) as [w'|] eqn:Hw.
  - assert (w' = w) as ->.
    { unfold Config.get_active_workspace in Hg. rewrite Hg in Hw.
      apply DiscoveryFacts.if_truthy_inv in Hw. congruence. }
    rewrite (resolve_inside_prefix g os file_path w Hw); rewrite Hfix;
      [reflexivity|apply is_descendant_startswith, Hd].
  - rewrite (resolve_no_workspace g os file_path Hw), Hfix. reflexivity.
Qed.

Lemma X10_descendants_are_accepted_witness :
  Config.get_active_workspace globals_proj = Some "/proj" /\
  normal_abs "/proj/pkg/mod.py" /\
  is_descendant "/proj" "/proj/pkg/mod.py" = true /\
  Config.resolve_file_path globals_proj os_home "/proj/pkg/mod.py"
  = (Some "/proj/pkg/mod.py", None).
Proof.
  assert (Hn : normal_abs "/proj/pkg/mod.py") by (split; vm_compute; reflexivity).
  split; [reflexivity|]. split; [exact Hn|]. split; [reflexivity|].
  exact (X10_descendants_are_accepted globals_proj os_home "/proj"
           "/proj/pkg/mod.py" eq_refl Hn eq_refl).
Defined.
